(** * Oklahoma Mesonet reader: a shallow embedding of
    [metpy/readers/mesonet.py] and the properties of its fetch, parse,
    enrichment and assembly pipeline.

    The module is Python 2 code over [datetime], [urllib2] and numpy masked
    record arrays.  Pure functions are Rocq functions; exceptions are the
    [Raise] branch of [result]; the memo table of [_fetch_mesonet_data] and
    the requests sent to the server are threaded through an explicit state. *)

From Stdlib Require Import ZArith QArith Ascii String List Lia Bool.
From Stdlib Require Import DecimalString DecimalZ DecimalN.
From Stdlib Require OrderedTypeEx.
From stdpp Require Import base option list strings gmap.

Local Open Scope string_scope.
Local Open Scope list_scope.
Local Open Scope Z_scope.

(** ** Exceptions and results *)

Inductive pyerror :=
| NameError | AttributeError | TypeError | ValueError
| IndexError | KeyError | OverflowError | IOError
| ParseError.

Inductive result (A : Type) :=
| Ok (a : A)
| Raise (e : pyerror).
Arguments Ok {A} a.
Arguments Raise {A} e.

Definition rbind {A B} (r : result A) (k : A -> result B) : result B :=
  match r with
  | Ok a => k a
  | Raise e => Raise e
  end.

Notation "'try' x <- r 'in' k" := (rbind r (fun x => k))
  (at level 10, x pattern, r at level 100, k at level 200) : stdpp_scope.

Fixpoint rmap {A B} (f : A -> result B) (l : list A) : result (list B) :=
  match l with
  | [] => Ok []
  | a :: l' => try b <- f a in try bs <- rmap f l' in Ok (b :: bs)
  end.

Definition is_ok {A} (r : result A) : bool :=
  match r with Ok _ => true | Raise _ => false end.

(** ** Python strings *)

Module PyStr.

Definition is_space (c : ascii) : bool :=
  let n := nat_of_ascii c in
  ((9 <=? n) && (n <=? 13) || (n =? 32))%nat.

Definition upper_char (c : ascii) : ascii :=
  let n := nat_of_ascii c in
  if ((97 <=? n) && (n <=? 122))%nat then ascii_of_nat (n - 32) else c.

Definition lower_char (c : ascii) : ascii :=
  let n := nat_of_ascii c in
  if ((65 <=? n) && (n <=? 90))%nat then ascii_of_nat (n + 32) else c.

Fixpoint smap (f : ascii -> ascii) (s : string) : string :=
  match s with
  | EmptyString => EmptyString
  | String c s' => String (f c) (smap f s')
  end.

(** [str.upper] and [str.lower] *)
Definition upper : string -> string := smap upper_char.
Definition lower : string -> string := smap lower_char.

(** [s.split()]: maximal runs of non-blank characters.  [cur] holds the
    run being read, reversed. *)
Fixpoint split_go (s : string) (cur : list ascii) : list string :=
  let flush (rest : list string) :=
    match cur with
    | [] => rest
    | _ => string_of_list_ascii (rev cur) :: rest
    end in
  match s with
  | EmptyString => flush []
  | String c s' =>
      if is_space c then flush (split_go s' []) else split_go s' (c :: cur)
  end.
Definition split (s : string) : list string := split_go s [].

(** [s.split(sep)] for a one-character separator *)
Fixpoint split_on_go (sep : ascii) (s : string) (cur : list ascii)
  : list string :=
  match s with
  | EmptyString => [string_of_list_ascii (rev cur)]
  | String c s' =>
      if Ascii.eqb c sep
      then string_of_list_ascii (rev cur) :: split_on_go sep s' []
      else split_on_go sep s' (c :: cur)
  end.
Definition split_on (sep : ascii) (s : string) : list string :=
  split_on_go sep s [].

(** [sep.join(l)] *)
Fixpoint join (sep : string) (l : list string) : string :=
  match l with
  | [] => ""
  | [x] => x
  | x :: l' => x +:+ sep +:+ join sep l'
  end.

(** The lines a [StringIO] over [s] yields; the line terminator is
    dropped, every consumer splits on blanks. *)
Definition lines (s : string) : list string :=
  match rev (split_on "010"%char s) with
  | "" :: l => rev l
  | l => rev l
  end.

(** [str(n)] for an integer *)
Definition str (n : Z) : string := NilZero.string_of_int (Z.to_int n).

(** ['%0wd' % n] *)
Definition zfill (w : nat) (n : Z) : string :=
  let digits := NilZero.string_of_uint (N.to_uint (Z.abs_N n)) in
  let sign := if (n <? 0)%Z then "-" else "" in
  let pad := (w - String.length sign - String.length digits)%nat in
  sign +:+ string_of_list_ascii (repeat "0"%char pad) +:+ digits.

(** [int(s)] on a token without blanks: an optional sign and at least one
    decimal digit. *)
Definition int (s : string) : result Z :=
  let unsigned (t : string) :=
    match NilZero.uint_of_string t with
    | Some d => Ok (Z.of_N (N.of_uint d))
    | None => Raise ValueError
    end in
  match s with
  | String "+" t => unsigned t
  | String "-" t => try n <- unsigned t in Ok (- n)
  | _ => unsigned s
  end.

(** A decimal literal: optional sign, digits, optional point and digits,
    with a digit on at least one side of the point. *)
Definition decimal (s : string) : option Q :=
  let unsigned (t : string) : option Q :=
    match split_on "."%char t with
    | [ip] =>
        match NilZero.uint_of_string ip with
        | Some d => Some (inject_Z (Z.of_N (N.of_uint d)))
        | None => None
        end
    | [ip; fp] =>
        match NilEmpty.uint_of_string ip, NilEmpty.uint_of_string fp with
        | Some a, Some b =>
            if (String.length ip + String.length fp =? 0)%nat then None
            else
              let k := Z.of_nat (String.length fp) in
              Some (Qmake (Z.of_N (N.of_uint a) * 10 ^ k
                           + Z.of_N (N.of_uint b))
                          (Z.to_pos (10 ^ k)))
        | _, _ => None
        end
    | _ => None
    end in
  match s with
  | String "+" t => unsigned t
  | String "-" t => option_map Qopp (unsigned t)
  | _ => unsigned s
  end.

End PyStr.

(** ** [datetime] and [timedelta]

    The proleptic Gregorian calendar of Python's [datetime] module: a date
    is numbered by its ordinal, day 1 being 0001-01-01. *)

Module Datetime.

Record datetime := mk {
  year : Z; month : Z; day : Z;
  hour : Z; minute : Z; second : Z; microsecond : Z
}.

#[global] Instance datetime_eq_dec : EqDecision datetime.
Proof. solve_decision. Defined.

Definition MINYEAR : Z := 1.
Definition MAXYEAR : Z := 9999.
Definition MAXORDINAL : Z := 3652059.

Definition is_leap (y : Z) : bool :=
  (y mod 4 =? 0) && (negb (y mod 100 =? 0) || (y mod 400 =? 0)).

Definition days_in_month (y m : Z) : Z :=
  if m =? 2 then (if is_leap y then 29 else 28)
  else if (m =? 4) || (m =? 6) || (m =? 9) || (m =? 11) then 30
  else 31.

Definition days_in_month_table : list Z :=
  [-1; 31; 28; 31; 30; 31; 30; 31; 31; 30; 31; 30; 31].

Definition days_before_year (y : Z) : Z :=
  let p := y - 1 in p * 365 + p / 4 - p / 100 + p / 400.

Definition days_before_month_table : list Z :=
  [0; 31; 59; 90; 120; 151; 181; 212; 243; 273; 304; 334].

Definition days_before_month (y m : Z) : Z :=
  nth (Z.to_nat (m - 1)) days_before_month_table 0
  + (if (2 <? m) && is_leap y then 1 else 0).

Definition ymd2ord (y m d : Z) : Z :=
  days_before_year y + days_before_month y m + d.

Definition DI400Y : Z := 146097.
Definition DI100Y : Z := 36524.
Definition DI4Y : Z := 1461.

(** The inverse of [ymd2ord], by the 400, 100, 4 and 1 year cycles. *)
Definition ord2ymd (n : Z) : Z * Z * Z :=
  let n := n - 1 in
  let n400 := n / DI400Y in let n := n mod DI400Y in
  let y := n400 * 400 + 1 in
  let n100 := n / DI100Y in let n := n mod DI100Y in
  let n4 := n / DI4Y in let n := n mod DI4Y in
  let n1 := n / 365 in let n := n mod 365 in
  let y := y + n100 * 100 + n4 * 4 + n1 in
  if (n1 =? 4) || (n100 =? 4) then (y - 1, 12, 31)
  else
    let leapyear := (n1 =? 3) && (negb (n4 =? 24) || (n100 =? 3)) in
    let m := Z.shiftr (n + 50) 5 in
    let preceding :=
      nth (Z.to_nat (m - 1)) days_before_month_table 0
      + (if (2 <? m) && leapyear then 1 else 0) in
    let '(m, preceding) :=
      if n <? preceding
      then (m - 1,
            preceding
            - (nth (Z.to_nat (m - 1)) days_in_month_table 0
               + (if (m - 1 =? 2) && leapyear then 1 else 0)))
      else (m, preceding) in
    (y, m, n - preceding + 1).

Definition in_range (lo x hi : Z) : bool := (lo <=? x) && (x <=? hi).

(** The checks of the [datetime(...)] constructor. *)
Definition valid (d : datetime) : bool :=
  in_range MINYEAR (year d) MAXYEAR && in_range 1 (month d) 12
  && in_range 1 (day d) (days_in_month (year d) (month d))
  && in_range 0 (hour d) 23 && in_range 0 (minute d) 59
  && in_range 0 (second d) 59 && in_range 0 (microsecond d) 999999.

(** The arguments of [datetime(...)] are parsed as C [int]s: a Python
    integer beyond that range raises [OverflowError] before any check of
    the calendar. *)
Definition c_int (z : Z) : bool := in_range (-2147483648) z 2147483647.

Definition new (y m d h mi s us : Z) : result datetime :=
  if forallb c_int [y; m; d; h; mi; s; us] then
    let r := mk y m d h mi s us in
    if valid r then Ok r else Raise ValueError
  else Raise OverflowError.

(** [datetime] applied to the positional arguments [args]: year, month
    and day are required. *)
Definition of_args (args : list Z) : result datetime :=
  match args with
  | [y; m; d] => new y m d 0 0 0 0
  | _ => Raise TypeError
  end.

(** [d.replace(minute=mi, second=s, microsecond=us)] *)
Definition replace_minute_second_microsecond (d : datetime) (mi s us : Z)
  : result datetime :=
  new (year d) (month d) (day d) (hour d) mi s us.

Definition toordinal (d : datetime) : Z := ymd2ord (year d) (month d) (day d).

(** A normalised [timedelta]: days, seconds in [0, 86400) and
    microseconds in [0, 10^6). *)
Record timedelta := mk_delta { days : Z; seconds : Z; microseconds : Z }.

Definition normalise (dd ss us : Z) : result timedelta :=
  let ss := ss + us / 1000000 in
  let us := us mod 1000000 in
  let dd := dd + ss / 86400 in
  let ss := ss mod 86400 in
  if in_range (-999999999) dd 999999999
  then Ok (mk_delta dd ss us) else Raise OverflowError.

Definition timedelta_days (n : Z) : result timedelta := normalise n 0 0.
Definition timedelta_minutes (n : Z) : result timedelta :=
  normalise 0 (n * 60) 0.

(** [d + t] *)
Definition add (d : datetime) (t : timedelta) : result datetime :=
  try delta <- normalise (toordinal d + days t)
                 (hour d * 3600 + minute d * 60 + second d + seconds t)
                 (microsecond d + microseconds t) in
  if (0 <? days delta) && (days delta <=? MAXORDINAL) then
    let '(y, m, dd) := ord2ymd (days delta) in
    let h := seconds delta / 3600 in
    let rem := seconds delta mod 3600 in
    Ok (mk y m dd h (rem / 60) (rem mod 60) (microseconds delta))
  else Raise OverflowError.

(** [d - t] *)
Definition sub (d : datetime) (t : timedelta) : result datetime :=
  try neg <- normalise (- days t) (- seconds t) (- microseconds t) in
  add d neg.

(** [d.strftime(fmt)] raises below the year 1900 in Python 2. *)
Definition strftime_guard (d : datetime) (s : string) : result string :=
  if year d <? 1900 then Raise ValueError else Ok s.

(** [d.strftime('%Y%m%d%H%M')] *)
Definition strftime_YmdHM (d : datetime) : result string :=
  strftime_guard d
    (PyStr.zfill 4 (year d) +:+ PyStr.zfill 2 (month d)
     +:+ PyStr.zfill 2 (day d) +:+ PyStr.zfill 2 (hour d)
     +:+ PyStr.zfill 2 (minute d)).

(** [d.strftime('%Y%m%d')] *)
Definition strftime_Ymd (d : datetime) : result string :=
  strftime_guard d
    (PyStr.zfill 4 (year d) +:+ PyStr.zfill 2 (month d)
     +:+ PyStr.zfill 2 (day d)).

End Datetime.
Abbreviation datetime := Datetime.datetime.

(** ** Module constants *)

Definition mesonet_vars : list string :=
  ["STID"; "STNM"; "TIME"; "RELH"; "TAIR"; "WSPD"; "WVEC"; "WDIR";
   "WDSD"; "WSSD"; "WMAX"; "RAIN"; "PRES"; "SRAD"; "TA9M"; "WS2M"; "TS10";
   "TB10"; "TS05"; "TB05"; "TS30"; "TR05"; "TR25"; "TR60"; "TR75"].

(** Map of standard variable names to those used by the mesonet. *)
Definition mesonet_var_map : gmap string string :=
  list_to_map
    [("temperature", "TAIR"); ("relative humidity", "RELH");
     ("wind speed", "WSPD"); ("wind direction", "WDIR"); ("rainfall", "RAIN");
     ("pressure", "PRES"); ("site", "STID"); ("solar radiation", "SRAD");
     ("wind gusts", "WMAX")].

(** [dict(zip(d.values(), d.keys()))]: [values()] and [keys()] list the
    items of [d] in one and the same order. *)
Definition dict_invert (d : gmap string string) : gmap string string :=
  list_to_map (zip ((map_to_list d).*2) ((map_to_list d).*1)).

Definition mesonet_inv_var_map : gmap string string :=
  dict_invert mesonet_var_map.

Definition BAD_DATA_LIMIT : Z := -990.
Definition FUTURE_OBSERVATION : Z := -996.

(** [range(start, stop, step)] for a negative [step] *)
Definition range_down (start stop step : Z) : list Z :=
  let n := Z.to_nat ((start - stop + (- step) - 1) / (- step)) in
  map (fun i => start + Z.of_nat i * step) (seq 0 n).

(** ** Masked record arrays *)

Inductive value :=
| VNum (q : Q)
| VStr (s : string)
| VTime (d : datetime).

Record cell := mk_cell { data : value; mask : bool }.

(** A record array: the field names of its dtype and its records, one
    cell per field. *)
Record table := mk_table { names : list string; rows : list (list cell) }.

Definition size (t : table) : nat := length (rows t).

(** The position of the first [x] in [l]: [l.index(x)] *)
Fixpoint index_of (x : string) (l : list string) : option nat :=
  match l with
  | [] => None
  | y :: l' => if String.eqb x y then Some 0%nat else S <$> index_of x l'
  end.

(** [t[name]]: the column of a field, an error when the dtype has no field
    of that name. *)
Definition field (t : table) (name : string) : result (list cell) :=
  match index_of name (names t) with
  | None => Raise ValueError
  | Some i =>
      rmap (fun r : list cell =>
              match r !! i with
              | Some c => Ok c
              | None => Raise IndexError
              end) (rows t)
  end.

(** [a[idx]] for an index array [idx] *)
Definition take_indices {A} (a : list A) (idx : list nat) : result (list A) :=
  rmap (fun i => match a !! i with
                 | Some x => Ok x
                 | None => Raise IndexError
                 end) idx.

(** [a.searchsorted(key)]: binary search for the leftmost insertion point
    in [lo, hi); the interval shrinks at every step, so [hi - lo] steps
    are enough. *)
Fixpoint bisect_left (steps : nat) (a : list string) (key : string)
  (lo hi : nat) : nat :=
  match steps with
  | O => lo
  | S steps' =>
      if (lo <? hi)%nat then
        let mid := (lo + (hi - lo) / 2)%nat in
        match a !! mid with
        | Some x =>
            if String.ltb x key
            then bisect_left steps' a key (S mid) hi
            else bisect_left steps' a key lo mid
        | None => lo
        end
      else lo
  end.

Definition searchsorted (a : list string) (keys : list string) : list nat :=
  map (fun k => bisect_left (length a) a k 0 (length a)) keys.

(** ** The station table *)

Record station := mk_station { stid : string; Lat : Q; Lon : Q; Elev : Q }.

(** ** The world outside the module

    [dt] is a module global: it is bound only by the script section under
    [__main__] (to a [datetime] or to [None]) and is unbound in a program
    that imports the module. *)

Inductive global :=
| Unbound
| BoundNone
| Bound (d : datetime).

Record world := mk_world {
  (** the module global [dt] *)
  dt_global : global;
  (** [datetime.datetime.utcnow()] *)
  utcnow : datetime;
  (** [urllib2.urlopen(url).read()] for the request number [n] of the
      process: the body, or the transport error *)
  urlopen : nat -> string -> result string;
  (** [mesonet_stid_info()]: the rows that [loadtxt] reads from the
      station listing embedded in the module *)
  station_table : list station;
  (** [file(path)], [gzip.open(path)] and [bz2.BZ2File(path)] *)
  file_open : string -> result (list string);
  gzip_open : string -> result (list string);
  bz2_open : string -> result (list string);
  (** the conversion that the array library applies to a record assigned
      into an array of the dtype of the table given, field by field by
      position: the converted record, or the error of a value that cannot
      be converted *)
  astype : table -> list cell -> result (list cell)
}.

(** The memo table of [_fetch_mesonet_data], most recently used first, and
    the URLs requested so far, oldest first. *)
Abbreviation fetch_key := (datetime * option string)%type.

Record state := mk_state {
  cache : list (fetch_key * string);
  requests : list string
}.

Definition empty_state : state := mk_state [] [].

Definition M (A : Type) : Type := state -> result A * state.

Definition ret {A} (a : A) : M A := fun s => (Ok a, s).
Definition lift {A} (r : result A) : M A := fun s => (r, s).
Definition bind {A B} (m : M A) (k : A -> M B) : M B :=
  fun s =>
    match m s with
    | (Ok a, s') => k a s'
    | (Raise e, s') => (Raise e, s')
    end.

Notation "'run' x <- m 'in' k" := (bind m (fun x => k))
  (at level 10, x pattern, m at level 100, k at level 200) : stdpp_scope.

(** ** The memo decorator *)

(** Modelled from the spec: [lru_cache] of [metpy.cbook], which is not part
    of the sources at hand.  A table of at most [maxsize] results with
    least-recently-used eviction.  As a decorator it sees the arguments of
    the call and nothing else, so an entry is keyed by the arguments as
    they were passed; a call that raises leaves no entry. *)
Fixpoint cache_get (k : fetch_key) (c : list (fetch_key * string))
  : option string :=
  match c with
  | [] => None
  | (k', v) :: c' => if decide (k' = k) then Some v else cache_get k c'
  end.

Fixpoint cache_remove (k : fetch_key) (c : list (fetch_key * string))
  : list (fetch_key * string) :=
  match c with
  | [] => []
  | (k', v) :: c' =>
      if decide (k' = k) then cache_remove k c' else (k', v) :: cache_remove k c'
  end.

Definition lru_cache (maxsize : nat) (f : fetch_key -> M string)
  : fetch_key -> M string :=
  fun k s =>
    match cache_get k (cache s) with
    | Some v =>
        (Ok v, mk_state ((k, v) :: cache_remove k (cache s)) (requests s))
    | None =>
        match f k s with
        | (Ok v, s') =>
            (Ok v, mk_state (take maxsize ((k, v) :: cache s')) (requests s'))
        | (Raise e, s') => (Raise e, s')
        end
    end.

(** ** Reading a table of text *)

Definition converter : Type := string -> result value.

(** Modelled from the spec: the cell reader of [mloadtxt] of [metpy.cbook],
    which is not part of the sources at hand.  An entry of the
    comma-separated [missing] list matches a token that parses to the same
    number (or, for an entry that is no number, the same text). *)
Definition same_value (entry tok : string) : bool :=
  match PyStr.decimal entry, PyStr.decimal tok with
  | Some a, Some b => Qeq_bool a b
  | _, _ => String.eqb entry tok
  end.

Definition is_missing (missing tok : string) : bool :=
  existsb (fun entry => same_value entry tok) (PyStr.split_on "," missing).

(** The value of a token under [dtype=None]: a number when it reads as
    one, text otherwise. *)
Definition auto_value (tok : string) : value :=
  match PyStr.decimal tok with
  | Some q => VNum q
  | None => VStr tok
  end.

(** A cell keeps the value of its token, converted when its column has a
    converter, and is masked when the token is a missing value. *)
Definition parse_cell (converters : gmap string converter) (missing : string)
  (name tok : string) : result cell :=
  try v <- match converters !! name with
           | Some f => f tok
           | None => Ok (auto_value tok)
           end in
  Ok (mk_cell v (is_missing missing tok)).

(** Column selection: with [usecols] given, the columns whose name is
    listed, compared without regard to case, in file order. *)
Definition selected (usecols : option (list string)) (name : string) : bool :=
  match usecols with
  | None => true
  | Some cols => existsb (String.eqb (PyStr.upper name)) cols
  end.

(** The tokens of a line that are read, each with the name of its
    column. *)
Definition selected_tokens (usecols : option (list string))
  (header toks : list string) : list (string * string) :=
  List.filter (fun p : string * string => selected usecols p.1)
              (zip header toks).

Definition parse_row (converters : gmap string converter) (missing : string)
  (usecols : option (list string)) (header toks : list string)
  : result (list cell) :=
  rmap (fun p : string * string => parse_cell converters missing p.1 p.2)
       (selected_tokens usecols header toks).

(** Modelled from the spec: [mloadtxt] of [metpy.cbook] with [dtype=None]
    and [names=True], which is not part of the sources at hand.  After
    [skiprows] lines comes the row of column names, then one record per
    line; a line whose token count differs from the header is a parse
    error, as is a stream without header row. *)
Definition mloadtxt (fh : list string) (usecols : option (list string))
  (skiprows : nat) (converters : gmap string converter) (missing : string)
  : result table :=
  match drop skiprows fh with
  | [] => Raise ParseError
  | head :: body =>
      let header := PyStr.split head in
      try rs <- rmap (fun line =>
                        let toks := PyStr.split line in
                        if (length toks =? length header)%nat
                        then parse_row converters missing usecols header toks
                        else Raise ParseError) body in
      Ok (mk_table (List.filter (selected usecols) header) rs)
  end.

(** Modelled from the spec: [rec_append_fields] of [metpy.cbook], which is
    not part of the sources at hand: the new columns come after the
    existing ones, in the order given. *)
Definition rec_append_fields (t : table) (new_names : list string)
  (cols : list (list value)) : table :=
  mk_table (names t ++ new_names)
    (imap (fun i r =>
             r ++ omap (fun col => (fun v => mk_cell v false) <$> col !! i)
                       cols)
          (rows t)).

(** ** The reader *)

(** The [filename] argument: a path, an object with [readline], or
    anything else. *)
Inductive source :=
| Path (p : string)
| Handle (lines : list string)
| Other.

Definition endswith (s suffix : string) : bool :=
  let n := String.length s in
  let k := String.length suffix in
  (k <=? n)%nat && String.eqb (substring (n - k) k s) suffix.

(** [missing]: the ten values from [BAD_DATA_LIMIT] down, joined by
    commas. *)
Definition missing : string :=
  PyStr.join "," (map PyStr.str
                      (range_down BAD_DATA_LIMIT (BAD_DATA_LIMIT - 10) (-1))).

(** [lambda t: dt + timedelta(minutes=int(t))] *)
Definition time_converter (dt : datetime) : converter :=
  fun t =>
    try n <- PyStr.int t in
    try delta <- Datetime.timedelta_minutes n in
    try d <- Datetime.add dt delta in
    Ok (VTime d).

(** [data.dtype.names = new_names] *)
Definition set_names (t : table) (new_names : list string) : table :=
  mk_table new_names (rows t).

(** [[mesonet_inv_var_map.get(n.upper(), n) for n in names]] *)
Definition rename (n : string) : string :=
  default n (mesonet_inv_var_map !! PyStr.upper n).

(** [if fields: fields = map(str.upper, fields)] *)
Definition upper_fields (fields : option (list string))
  : option (list string) :=
  match fields with
  | Some ((_ :: _) as l) => Some (PyStr.upper <$> l)
  | _ => fields
  end.

Definition text_of (c : cell) : result string :=
  match data c with
  | VStr s => Ok s
  | _ => Raise TypeError
  end.

Section Reader.

Variable w : world.

(** [mesonet_stid_info()] with its default columns: station id,
    latitude, longitude and elevation. *)
Definition mesonet_stid_info : list station := station_table w.

Definition open_source (filename : source) : result (list string) :=
  match filename with
  | Path p =>
      if endswith p ".gz" then gzip_open w p
      else if endswith p ".bz2" then bz2_open w p
      else file_open w p
  | Handle fh => Ok fh
  | Other => Raise ValueError
  end.

(** The station lookup at the end of [read_mesonet_data].  The station
    ids of the table are text; a cell of another kind has no place in the
    order of the station ids and is reported as a [TypeError]. *)
Definition lookup_stations (t : table) : result table :=
  let sta_table := mesonet_stid_info in
  try ids <- field t "STID" in
  try keys <- rmap text_of ids in
  let station_indices := searchsorted (stid <$> sta_table) keys in
  try lat <- take_indices (Lat <$> sta_table) station_indices in
  try lon <- take_indices (Lon <$> sta_table) station_indices in
  try elev <- take_indices (Elev <$> sta_table) station_indices in
  Ok (rec_append_fields t ["latitude"; "longitude"; "elevation"]
        [VNum <$> lat; VNum <$> lon; VNum <$> elev]).

Definition read_mesonet_data (filename : source)
  (fields : option (list string))
  (rename_fields convert_time lookup_stids : bool) : result table :=
  try fh <- open_source filename in
  let fields := upper_fields fields in
  try setup <-
    (if convert_time then
       (* skip the first line, read the second for the date *)
       let info := PyStr.split (default "" (fh !! 1%nat)) in
       try ymd <- rmap PyStr.int (take 3 (drop 1 info)) in
       try dt <- Datetime.of_args ymd in
       Ok (drop 2 fh, 0%nat, ({[ "TIME" := time_converter dt ]}
                              : gmap string converter))
     else Ok (fh, 2%nat, ∅)) in
  let '(fh, skip, conv) := setup in
  try data <- mloadtxt fh fields skip conv missing in
  (* map the names in the file to their descriptive counterparts *)
  let data :=
    if rename_fields then set_names data (rename <$> names data)
    else data in
  (* change the converted column name from TIME to datetime *)
  try data <-
    (if convert_time then
       match index_of "TIME" (names data) with
       | Some i => Ok (set_names data (<[i := "datetime"]> (names data)))
       | None => Raise ValueError
       end
     else Ok data) in
  if lookup_stids then lookup_stations data else Ok data.

End Reader.

(** ** The time of the last actual observation *)

(** What indexing a masked array by a position gives: the element, or the
    [masked] constant. *)
Inductive item :=
| Item (v : value)
| Masked.

Definition item_of (c : cell) : item :=
  if mask c then Masked else Item (data c).

(** [x != FUTURE_OBSERVATION] on the raw data of a cell *)
Definition not_future (c : cell) : bool :=
  match data c with
  | VNum q => negb (Qeq_bool q (inject_Z FUTURE_OBSERVATION))
  | _ => true
  end.

Definition get_last_time (t : table) (ref_field dt_field : string)
  : result item :=
  try ref <- field t ref_field in
  let mask := not_future <$> ref in
  try times <- field t dt_field in
  let picked := (List.filter (fun p : bool * cell => p.1) (zip mask times)).*2 in
  match last picked with
  | Some c => Ok (item_of c)
  | None => Raise IndexError
  end.

(** ** Fetching from the server *)

Definition baseurl (dir filename : string) : string :=
  "http://www.mesonet.org/public/data/getfile.php?dir=" +:+ dir
  +:+ "&filename=" +:+ filename.

(** [final_data = np.ma.empty(old_data.size + data.size, dtype=data.dtype)]
    followed by [final_data[:old_data.size] = old_data] and
    [final_data[old_data.size:] = data]: the new array has the dtype, and so
    the field names, of [data]; the records of [old_data] are assigned by
    position and converted to that dtype by [astype]; those of [data] are
    copied. *)
Definition concat_records (w : world) (old_data data : table) : result table :=
  try converted <- rmap (astype w data) (rows old_data) in
  Ok (mk_table (names data) (converted ++ rows data)).

Section Remote.

Variable w : world.

(** [urllib2.urlopen(url).read()] *)
Definition request (url : string) : M string :=
  fun s =>
    (urlopen w (length (requests s)) url,
     mk_state (cache s) (requests s ++ [url])).

(** The body of [_fetch_mesonet_data], under the decorator. *)
Definition fetch_body (k : fetch_key) : M string :=
  let '(date_time, site) := k in
  run p <- lift
    (match site with
     | None =>
         (* put time back to last even 5 minutes *)
         try m <-
           (match dt_global w with
            | Unbound => Raise NameError
            | BoundNone => Raise AttributeError
            | Bound dt =>
                Ok (Datetime.minute dt - Datetime.minute dt mod 5)
            end) in
         try date_time <-
           Datetime.replace_minute_second_microsecond date_time m 0 0 in
         try stamp <- Datetime.strftime_YmdHM date_time in
         Ok ("mdf", date_time, stamp +:+ ".mdf")
     | Some site =>
         try stamp <- Datetime.strftime_Ymd date_time in
         Ok ("mts", date_time, stamp +:+ PyStr.lower site +:+ ".mts")
     end) in
  let '(data_type, date_time, fname) := p in
  (* create the various parts of the URL and assemble them together *)
  let path :=
    "/" +:+ data_type +:+ "/" +:+ PyStr.zfill 4 (Datetime.year date_time)
    +:+ "/" +:+ PyStr.zfill 2 (Datetime.month date_time)
    +:+ "/" +:+ PyStr.zfill 2 (Datetime.day date_time) +:+ "/" in
  request (baseurl (path +:+ fname) fname).

Definition _fetch_mesonet_data (date_time : datetime) (site : option string)
  : M string :=
  lru_cache 20 fetch_body (date_time, site).

Definition remote_mesonet_data (date_time : option datetime)
  (fields : option (list string)) (site : option string)
  (rename_fields convert_time lookup_stids full_day_record : bool)
  : M table :=
  (* without a date, and therefore using today, fetch yesterday's data
     too for a full 24 hour record *)
  run p <-
    (match date_time with
     | None =>
         let date_time := utcnow w in
         if full_day_record then
           run yest <- lift (try one_day <- Datetime.timedelta_days 1 in
                             Datetime.sub date_time one_day) in
           run old_data <- _fetch_mesonet_data yest site in
           run old_data <- lift
             (read_mesonet_data w (Handle (PyStr.lines old_data)) fields
                rename_fields convert_time lookup_stids) in
           ret (date_time, Some old_data)
         else ret (date_time, None)
     | Some date_time => ret (date_time, None)
     end) in
  let '(date_time, old_data) := p in
  (* fetch the data and read it in *)
  run data <- _fetch_mesonet_data date_time site in
  run data <- lift
    (read_mesonet_data w (Handle (PyStr.lines data)) fields
       rename_fields convert_time lookup_stids) in
  match old_data with
  | Some old_data => lift (concat_records w old_data data)
  | None => ret data
  end.

End Remote.

(** ** One day of data

    One fetch followed by one parse, as [remote_mesonet_data] does for the
    day asked for. *)
Definition fetch_and_read (w : world) (date_time : datetime)
  (fields : option (list string)) (site : option string)
  (rename_fields convert_time lookup_stids : bool) : M table :=
  run body <- _fetch_mesonet_data w date_time site in
  lift (read_mesonet_data w (Handle (PyStr.lines body)) fields
          rename_fields convert_time lookup_stids).

(** ** The parser, in the words of the specification *)

(** One of the ten consecutive integers from -990 down to -999. *)
Definition in_band (q : Q) : Prop :=
  exists k : Z, -999 <= k <= -990 /\ (q == inject_Z k)%Q.

(** A cell is marked invalid exactly when its token is a number of the
    band. *)
Definition band_rule (tok : string) (c : cell) : Prop :=
  mask c = true <-> exists q, PyStr.decimal tok = Some q /\ in_band q.

(** The reference date: tokens 1 to 3 of the second line. *)
Definition spec_reference_date (line : string) : result datetime :=
  try ymd <- rmap PyStr.int (take 3 (drop 1 (PyStr.split line))) in
  Datetime.of_args ymd.

(** [ref + timedelta(minutes=n)], as the converter of the time column
    computes it. *)
Definition minutes_after (ref : datetime) (n : Z) : result datetime :=
  try delta <- Datetime.timedelta_minutes n in Datetime.add ref delta.

(** The reference date plus [n] minutes, for [n] minutes since midnight:
    the time of day [n / 60 : n mod 60] of the day of the reference
    date. *)
Definition spec_time_of_day (ref : datetime) (n : Z) : datetime :=
  Datetime.mk (Datetime.year ref) (Datetime.month ref) (Datetime.day ref)
    (n / 60) (n mod 60) 0 0.

(** A header of distinct mesonet variables. *)
Definition valid_header (header : list string) : Prop :=
  NoDup header /\ Forall (fun n => n ∈ mesonet_vars) header.

(** The cell of a token, under its column name, when the line of the token
    holds the time [d]. *)
Definition cell_with_time (d : datetime) (p : string * string) : cell :=
  mk_cell (if String.eqb p.1 "TIME" then VTime d else auto_value p.2)
          (is_missing missing p.2).

(** ** The calendar, step by step *)

(** The last step of [ord2ymd]: the month and the day of the [n]-th day
    of a year, counted from 0. *)
Definition month_and_day (leapyear : bool) (n : Z) : Z * Z :=
  let m := Z.shiftr (n + 50) 5 in
  let preceding :=
    nth (Z.to_nat (m - 1)) Datetime.days_before_month_table 0
    + (if (2 <? m) && leapyear then 1 else 0) in
  let '(m, preceding) :=
    if n <? preceding
    then (m - 1,
          preceding
          - (nth (Z.to_nat (m - 1)) Datetime.days_in_month_table 0
             + (if (m - 1 =? 2) && leapyear then 1 else 0)))
    else (m, preceding) in
  (m, n - preceding + 1).

(** ** The snapshot boundary, in the words of the specification *)

(** The timestamp floored to the preceding 5-minute boundary: minutes
    reduced modulo 5, seconds and microseconds zeroed. *)
Definition spec_floor5 (d : datetime) : datetime :=
  Datetime.mk (Datetime.year d) (Datetime.month d) (Datetime.day d)
    (Datetime.hour d) (Datetime.minute d - Datetime.minute d mod 5) 0 0.

(** The snapshot file name: the floored timestamp as [YYYYMMDDHHMM],
    followed by [.mdf]. *)
Definition spec_snapshot_filename (d : datetime) : result string :=
  try stamp <- Datetime.strftime_YmdHM (spec_floor5 d) in Ok (stamp +:+ ".mdf").

(** ** The station table, as the lookup needs it *)

(** Station ids in strictly ascending order, the order [searchsorted]
    relies on. *)
Definition sorted_ids (a : list string) : Prop :=
  forall i j x y, (i < j)%nat -> a !! i = Some x -> a !! j = Some y ->
                  String.ltb x y = true.

(** What the station lookup needs of a stream to go through: the station
    column is read under its own name, the station table is in order, and
    every line names a station of the table, by an id that does not read
    as a number. *)
Definition lookup_applies (w : world) (fields : option (list string))
  (rename_fields : bool) (head : string) (body : list string) : Prop :=
  rename_fields = false /\
  sorted_ids (stid <$> station_table w) /\
  selected (upper_fields fields) "STID" = true /\
  exists k,
    index_of "STID" (PyStr.split head) = Some k /\
    Forall (fun line =>
              exists st, st ∈ station_table w /\
                         PyStr.split line !! k = Some (stid st) /\
                         PyStr.decimal (stid st) = None) body.

(** The three cells that the lookup appends for a station. *)
Definition station_cells (st : station) : list cell :=
  [mk_cell (VNum (Lat st)) false; mk_cell (VNum (Lon st)) false;
   mk_cell (VNum (Elev st)) false].

(** ** Station requests *)

(** The URL of the time-series file of a station for the day of [d]. *)
Definition station_url (d : datetime) (site : string) : string :=
  let stamp :=
    PyStr.zfill 4 (Datetime.year d) +:+ PyStr.zfill 2 (Datetime.month d)
    +:+ PyStr.zfill 2 (Datetime.day d) in
  let fname := stamp +:+ PyStr.lower site +:+ ".mts" in
  let path :=
    "/mts/" +:+ PyStr.zfill 4 (Datetime.year d)
    +:+ "/" +:+ PyStr.zfill 2 (Datetime.month d)
    +:+ "/" +:+ PyStr.zfill 2 (Datetime.day d) +:+ "/" in
  baseurl (path +:+ fname) fname.

(** The same world with another binding of the module global [dt]. *)
Definition with_dt (g : global) (w : world) : world :=
  mk_world g (utcnow w) (urlopen w) (station_table w)
    (file_open w) (gzip_open w) (bz2_open w) (astype w).

(** ** Sample data *)

Definition newline : string := String "010" "".

Definition at_minute (h mi : Z) : datetime := Datetime.mk 2008 11 20 h mi 0 0.

(** A table whose times are not in ascending order and whose last row is
    marked as a future observation. *)
Definition sample_table : table :=
  mk_table ["datetime"; "TAIR"]
    [[mk_cell (VTime (at_minute 0 10)) false; mk_cell (VNum (123 # 10)) false];
     [mk_cell (VTime (at_minute 0 5)) false; mk_cell (VNum (-990 # 1)) true];
     [mk_cell (VTime (at_minute 0 15)) false; mk_cell (VNum (-996 # 1)) true]].

(** A table whose last actual observation has a masked time. *)
Definition masked_time_table : table :=
  mk_table ["datetime"; "TAIR"]
    [[mk_cell (VTime (at_minute 0 0)) false; mk_cell (VNum (123 # 10)) false];
     [mk_cell (VTime (at_minute 0 5)) true; mk_cell (VNum (121 # 10)) false];
     [mk_cell (VTime (at_minute 0 10)) false; mk_cell (VNum (-996 # 1)) true]].

(** A table without any actual observation. *)
Definition future_table : table :=
  mk_table ["datetime"; "TAIR"]
    [[mk_cell (VTime (at_minute 0 0)) false; mk_cell (VNum (-996 # 1)) true];
     [mk_cell (VTime (at_minute 0 5)) false; mk_cell (VNum (-996 # 1)) false]].

(** A time-series file of three observations. *)
Definition sample_title : string :=
  "  101 ! (c) 2008 Oklahoma Climatological Survey".
Definition sample_date_line : string := "  3 2008 11 20 00 00 00".
Definition sample_header : string := " STID  STNM  TIME   RELH   TAIR".
Definition sample_rows : list string :=
  [" NRMN   121     0     65   12.3";
   " NRMN   121     5   -999   -990";
   " NRMN   121    10   -996   -996"].

Definition sample_lines : list string :=
  sample_title :: sample_date_line :: sample_header :: sample_rows.

Definition sample_mts : string :=
  PyStr.join newline sample_lines +:+ newline.

Definition sample_stations : list station :=
  [mk_station "ADAX" (3480 # 100) (-9667 # 100) (295 # 1);
   mk_station "NRMN" (3524 # 100) (-9746 # 100) (357 # 1)].

(** The conversion between two arrays of the same dtype: every record is
    kept as it is. *)
Definition same_dtype (today : table) (record : list cell)
  : result (list cell) := Ok record.

(** A program that imports the module: the global [dt] is unbound; the
    server answers every request with [sample_mts]. *)
Definition library_world : world :=
  mk_world Unbound (Datetime.mk 2008 11 20 12 7 30 5)
    (fun _ _ => Ok sample_mts) sample_stations
    (fun _ => Raise IOError) (fun _ => Raise IOError) (fun _ => Raise IOError)
    same_dtype.

(** The module run as a script with [--date 20081120]: the global [dt] is
    that day at midnight. *)
Definition script_world : world :=
  mk_world (Bound (at_minute 0 0)) (Datetime.mk 2008 11 20 12 7 30 5)
    (fun _ _ => Ok sample_mts) sample_stations
    (fun _ => Raise IOError) (fun _ => Raise IOError) (fun _ => Raise IOError)
    same_dtype.









(** What [sample_mts] parses to when the station, the time and the air
    temperature are asked for and the time is converted. *)
Definition sample_parsed : table :=
  mk_table ["STID"; "datetime"; "TAIR"]
    [[mk_cell (VStr "NRMN") false; mk_cell (VTime (at_minute 0 0)) false;
      mk_cell (VNum (123 # 10)) false];
     [mk_cell (VStr "NRMN") false; mk_cell (VTime (at_minute 0 5)) false;
      mk_cell (VNum (-990 # 1)) true];
     [mk_cell (VStr "NRMN") false; mk_cell (VTime (at_minute 0 10)) false;
      mk_cell (VNum (-996 # 1)) true]].

(** Tables of one station-id column: a known station, a station whose id
    sorts between two known ones, and one that sorts after the last. *)
Definition known_site_table : table :=
  mk_table ["STID"] [[mk_cell (VStr "NRMN") false]; [mk_cell (VStr "ADAX") false]].

Definition unknown_site_table : table :=
  mk_table ["STID"] [[mk_cell (VStr "BURN") false]].

Definition late_site_table : table :=
  mk_table ["STID"] [[mk_cell (VStr "ADAX") false]; [mk_cell (VStr "ZZZZ") false]].

(** A server that cannot be reached, and one that answers the first
    request of the process only. *)
Definition offline_world : world :=
  mk_world Unbound (Datetime.mk 2008 11 20 12 7 30 5)
    (fun _ _ => Raise IOError) sample_stations
    (fun _ => Raise IOError) (fun _ => Raise IOError) (fun _ => Raise IOError)
    same_dtype.

Definition flaky_world : world :=
  mk_world Unbound (Datetime.mk 2008 11 20 12 7 30 5)
    (fun n _ => if (n =? 0)%nat then Ok sample_mts else Raise IOError)
    sample_stations
    (fun _ => Raise IOError) (fun _ => Raise IOError) (fun _ => Raise IOError)
    same_dtype.

(** [sample_table] followed by two more rows marked as future
    observations. *)
Definition sample_table_extended : table :=
  mk_table (names sample_table)
    (rows sample_table
     ++ [[mk_cell (VTime (at_minute 0 20)) false; mk_cell (VNum (-996 # 1)) true];
         [mk_cell (VTime (at_minute 0 25)) false; mk_cell (VNum (-996 # 1)) true]]).

(** What [sample_mts] parses to with all fields and [rename_fields]. *)
Definition sample_renamed : table :=
  mk_table ["site"; "STNM"; "datetime"; "relative humidity"; "temperature"]
    [[mk_cell (VStr "NRMN") false; mk_cell (VNum (121 # 1)) false;
      mk_cell (VTime (at_minute 0 0)) false; mk_cell (VNum (65 # 1)) false;
      mk_cell (VNum (123 # 10)) false];
     [mk_cell (VStr "NRMN") false; mk_cell (VNum (121 # 1)) false;
      mk_cell (VTime (at_minute 0 5)) false; mk_cell (VNum (-999 # 1)) true;
      mk_cell (VNum (-990 # 1)) true];
     [mk_cell (VStr "NRMN") false; mk_cell (VNum (121 # 1)) false;
      mk_cell (VTime (at_minute 0 10)) false; mk_cell (VNum (-996 # 1)) true;
      mk_cell (VNum (-996 # 1)) true]].

(** * Properties *)

Example split_ex :
  PyStr.split "  101 2008 11 20  0 0 0 " = ["101"; "2008"; "11"; "20"; "0"; "0"; "0"].
Proof. reflexivity. Qed.

Example lines_ex :
  PyStr.lines ("a b" +:+ String "010" "c" +:+ String "010" "") = ["a b"; "c"].
Proof. reflexivity. Qed.

Example str_ex : PyStr.str (-990) = "-990" /\ PyStr.str 0 = "0".
Proof. split; reflexivity. Qed.

Example zfill_ex :
  PyStr.zfill 4 2008 = "2008" /\ PyStr.zfill 2 5 = "05" /\ PyStr.zfill 2 123 = "123".
Proof. repeat split; reflexivity. Qed.

Example int_ex :
  PyStr.int "007" = Ok 7 /\ PyStr.int "-996" = Ok (-996) /\
  PyStr.int "12.5" = Raise ValueError /\ PyStr.int "" = Raise ValueError.
Proof. repeat split; reflexivity. Qed.

Example decimal_ex :
  PyStr.decimal "-12.50" = Some (Qmake (-1250) 100) /\
  PyStr.decimal "NRMN" = None /\ PyStr.decimal "." = None /\
  PyStr.decimal "-996" = Some (inject_Z (-996)).
Proof. repeat split; reflexivity. Qed.

Example ord_ex :
  Datetime.ymd2ord 2008 11 20 = 733366 /\
  Datetime.ord2ymd 733366 = (2008, 11, 20) /\
  Datetime.ord2ymd (Datetime.ymd2ord 2008 2 29) = (2008, 2, 29) /\
  Datetime.ord2ymd (Datetime.ymd2ord 2008 12 31) = (2008, 12, 31) /\
  Datetime.ord2ymd (Datetime.ymd2ord 2009 1 1) = (2009, 1, 1) /\
  Datetime.ymd2ord 9999 12 31 = Datetime.MAXORDINAL.
Proof. repeat split; reflexivity. Qed.

Example add_ex :
  rbind (Datetime.timedelta_minutes 1435)
        (Datetime.add (Datetime.mk 2008 11 20 0 0 0 0))
  = Ok (Datetime.mk 2008 11 20 23 55 0 0) /\
  rbind (Datetime.timedelta_minutes 1445)
        (Datetime.add (Datetime.mk 2008 12 31 0 0 0 0))
  = Ok (Datetime.mk 2009 1 1 0 5 0 0) /\
  rbind (Datetime.timedelta_days 1)
        (Datetime.sub (Datetime.mk 2008 3 1 10 20 30 40))
  = Ok (Datetime.mk 2008 2 29 10 20 30 40) /\
  rbind (Datetime.timedelta_days 1)
        (Datetime.sub (Datetime.mk 1 1 1 0 0 0 0))
  = Raise OverflowError.
Proof. repeat split; reflexivity. Qed.

Example strftime_ex :
  Datetime.strftime_YmdHM (Datetime.mk 2008 11 20 9 5 30 7) = Ok "200811200905" /\
  Datetime.strftime_Ymd (Datetime.mk 1899 11 20 9 5 30 7) = Raise ValueError.
Proof. repeat split; reflexivity. Qed.

(** ** Results and [rmap] *)

Lemma rmap_Forall2 {A B} (f : A -> result B) (l : list A) (l' : list B) :
  rmap f l = Ok l' <-> Forall2 (fun a b => f a = Ok b) l l'.
Proof.
  revert l'. induction l as [|a l IH]; intros l'; simpl.
  - split.
    + intros [= <-]. constructor.
    + intros H. by inversion H.
  - destruct (f a) as [b|e] eqn:Hfa; simpl.
    + destruct (rmap f l) as [bs|e] eqn:Hl; simpl.
      * split.
        -- intros [= <-]. constructor; [done|]. by apply IH.
        -- intros H. inversion H as [|? b' ? bs' Hb Hbs]; subst.
           apply IH in Hbs. congruence.
      * split; [done|].
        intros H. inversion H as [|? b' ? bs' Hb Hbs]; subst.
        apply IH in Hbs. congruence.
    + split; [done|].
      intros H. inversion H; congruence.
Qed.

Lemma rmap_ok {A B} (f : A -> result B) (g : A -> B) (l : list A) :
  Forall (fun a => f a = Ok (g a)) l -> rmap f l = Ok (g <$> l).
Proof.
  intros H. apply rmap_Forall2.
  induction H; simpl; constructor; auto.
Qed.

Lemma rmap_length {A B} (f : A -> result B) l l' :
  rmap f l = Ok l' -> length l' = length l.
Proof.
  intros H%rmap_Forall2. symmetry. by eapply Forall2_length.
Qed.

(** ** The field-name maps *)

Lemma zip_snd_fst {A B} (l : list (A * B)) :
  zip (l.*2) (l.*1) = prod_swap <$> l.
Proof. induction l as [|[a b] l IH]; [done|]. cbn. f_equal. exact IH. Qed.

Lemma dict_invert_lookup (d : gmap string string) (v k : string) :
  dict_invert d !! v = Some k -> d !! k = Some v.
Proof.
  unfold dict_invert. rewrite zip_snd_fst.
  intros H%elem_of_list_to_map_2.
  apply list_elem_of_fmap in H as [[k' v'] [[= -> ->] Hin]].
  by apply elem_of_map_to_list in Hin.
Qed.

(** A dictionary without repeated values is recovered from its inverse. *)
Lemma dict_invert_lookup_inv (d : gmap string string) (v k : string) :
  (forall k1 k2 x, d !! k1 = Some x -> d !! k2 = Some x -> k1 = k2) ->
  d !! k = Some v -> dict_invert d !! v = Some k.
Proof.
  intros Hinj Hk.
  destruct (dict_invert d !! v) as [k'|] eqn:Hinv.
  - apply dict_invert_lookup in Hinv. f_equal. eauto.
  - exfalso. unfold dict_invert in Hinv. rewrite zip_snd_fst in Hinv.
    apply not_elem_of_list_to_map in Hinv. apply Hinv.
    apply list_elem_of_fmap. exists (v, k). split; [done|].
    apply list_elem_of_fmap. exists (k, v). split; [done|].
    by apply elem_of_map_to_list.
Qed.

(** C8: every raw field code of the inverse field-name map is sent to a
    canonical name that the forward map sends back to that same raw
    code. *)
Theorem inv_var_map_round_trip (raw canonical : string) :
  mesonet_inv_var_map !! raw = Some canonical ->
  mesonet_var_map !! canonical = Some raw.
Proof. apply dict_invert_lookup. Qed.

Lemma inv_var_map_round_trip_witness :
  mesonet_inv_var_map !! "TAIR" = Some "temperature" /\
  mesonet_var_map !! "temperature" = Some "TAIR".
Proof.
  assert (H : mesonet_inv_var_map !! "TAIR" = Some "temperature")
    by (vm_compute; reflexivity).
  split; [exact H | exact (inv_var_map_round_trip "TAIR" "temperature" H)].
Defined.

(** The converse: the nine raw codes of the forward map are pairwise
    different, so each of its entries is found again in the inverse. *)
Lemma var_map_round_trip (canonical raw : string) :
  mesonet_var_map !! canonical = Some raw ->
  mesonet_inv_var_map !! raw = Some canonical.
Proof.
  intros H.
  assert (Hin : (canonical, raw) ∈ map_to_list mesonet_var_map)
    by by apply elem_of_map_to_list.
  vm_compute map_to_list in Hin.
  rewrite !elem_of_cons, elem_of_nil in Hin.
  repeat destruct Hin as [[= -> ->]|Hin]; try done; vm_compute; reflexivity.
Qed.

(** ** Columns of a table *)

(** Every record has one cell per field. *)
Definition well_formed (t : table) : Prop :=
  Forall (fun r : list cell => length r = length (names t)) (rows t).

Definition blank : cell := mk_cell (VStr "") false.

Definition cell_at (i : nat) (r : list cell) : cell := default blank (r !! i).

Lemma index_of_Some x l i :
  index_of x l = Some i -> l !! i = Some x /\ forall k, (k < i)%nat -> l !! k <> Some x.
Proof.
  revert i. induction l as [|y l IH]; intros i; simpl; [done|].
  destruct (String.eqb x y) eqn:E.
  - intros [= <-]. apply String.eqb_eq in E as ->. split; [done|lia].
  - destruct (index_of x l) as [i'|]; simpl; [|done].
    intros [= <-]. destruct (IH i' eq_refl) as [H1 H2]. split; [done|].
    intros [|k] Hk; simpl.
    + intros [= ->]. by rewrite String.eqb_refl in E.
    + apply H2. lia.
Qed.

Lemma index_of_None x l : index_of x l = None <-> x ∉ l.
Proof.
  induction l as [|y l IH]; simpl.
  - split; [intros _; apply not_elem_of_nil|done].
  - rewrite not_elem_of_cons. destruct (String.eqb x y) eqn:E.
    + apply String.eqb_eq in E as ->. split; [done|]. by intros [? _].
    + apply String.eqb_neq in E. destruct (index_of x l); simpl.
      * split; [done|]. intros [_ H]. by apply IH in H.
      * split; [|done]. intros _. split; [done|]. by apply IH.
Qed.

Lemma index_of_lt x l i : index_of x l = Some i -> (i < length l)%nat.
Proof. intros [H _]%index_of_Some. by eapply lookup_lt_Some. Qed.

Lemma cell_at_lookup i (r : list cell) :
  (i < length r)%nat -> r !! i = Some (cell_at i r).
Proof.
  intros H. unfold cell_at.
  destruct (lookup_lt_is_Some_2 r i H) as [c ->]. done.
Qed.

Lemma field_well_formed t name i :
  index_of name (names t) = Some i -> well_formed t ->
  field t name = Ok (cell_at i <$> rows t).
Proof.
  intros Hi Hwf. unfold field. rewrite Hi.
  apply rmap_ok. eapply Forall_impl; [exact Hwf|].
  intros r Hr; simpl. rewrite (cell_at_lookup i r); [done|].
  rewrite Hr. by eapply index_of_lt.
Qed.

Lemma zip_fmap_both {A B C} (f : A -> B) (g : A -> C) (l : list A) :
  zip (f <$> l) (g <$> l) = (fun x => (f x, g x)) <$> l.
Proof. induction l as [|a l IH]; [done|]. cbn. f_equal. exact IH. Qed.

(** ** The last actual observation *)

(** The raw value of the cell is the future-observation mark, whatever its
    mask. *)
Definition future (c : cell) : Prop :=
  exists q, data c = VNum q /\ (q == inject_Z FUTURE_OBSERVATION)%Q.

Lemma not_future_false c : not_future c = false <-> future c.
Proof.
  unfold not_future, future. destruct (data c) as [q|s|d].
  - rewrite negb_false_iff, Qeq_bool_iff. split.
    + intros H. by exists q.
    + by intros (q' & [= <-] & H).
  - split; [done|]. by intros (q' & [=] & _).
  - split; [done|]. by intros (q' & [=] & _).
Qed.

Lemma not_future_true c : not_future c = true <-> ~ future c.
Proof.
  rewrite <- not_future_false. destruct (not_future c); split; congruence.
Qed.

(** The times that [get_last_time] keeps: those of the records whose
    reference cell, at position [i], is not marked. *)
Definition kept (i j : nat) (l : list (list cell)) : list cell :=
  (List.filter (fun p : bool * cell => p.1)
     ((fun r => (not_future (cell_at i r), cell_at j r)) <$> l)).*2.

Lemma kept_app i j l1 l2 : kept i j (l1 ++ l2) = kept i j l1 ++ kept i j l2.
Proof. unfold kept. by rewrite fmap_app, List.filter_app, fmap_app. Qed.

Lemma kept_future i j l :
  Forall (fun r => future (cell_at i r)) l -> kept i j l = [].
Proof.
  induction 1 as [|r l Hr _ IH]; [done|].
  apply not_future_false in Hr. unfold kept in *. cbn. by rewrite Hr.
Qed.

Lemma kept_actual i j r :
  ~ future (cell_at i r) -> kept i j [r] = [cell_at j r].
Proof. intros Hr%not_future_true. unfold kept. cbn. by rewrite Hr. Qed.

Lemma get_last_time_kept t ref_field dt_field i j :
  index_of ref_field (names t) = Some i ->
  index_of dt_field (names t) = Some j ->
  well_formed t ->
  get_last_time t ref_field dt_field =
  match last (kept i j (rows t)) with
  | Some c => Ok (item_of c)
  | None => Raise IndexError
  end.
Proof.
  intros Hi Hj Hwf. unfold get_last_time.
  rewrite (field_well_formed t ref_field i Hi Hwf); cbn.
  rewrite (field_well_formed t dt_field j Hj Hwf); cbn.
  rewrite <- list_fmap_compose, zip_fmap_both. done.
Qed.

(** The last element with a property, and what follows it. *)
Lemma Exists_last_split {A} (P : A -> Prop) `{!forall x, Decision (P x)}
  (l : list A) :
  Exists P l ->
  exists pre x post, l = pre ++ x :: post /\ P x /\ Forall (fun y => ~ P y) post.
Proof.
  induction l as [|a l IH]; intros Hex; [by inversion Hex|].
  destruct (decide (Exists P l)) as [Hl|Hl].
  - destruct (IH Hl) as (pre & x & post & -> & Hx & Hpost).
    by exists (a :: pre), x, post.
  - inversion Hex as [? ? Ha|]; [|done]; subst.
    exists [], a, l. split; [done|]. split; [done|].
    by apply not_Exists_Forall.
Qed.

#[global] Instance future_dec c : Decision (future c).
Proof.
  destruct (not_future c) eqn:E.
  - right. by apply not_future_true.
  - left. by apply not_future_false.
Defined.

Lemma lookup_cell_at i (r : list cell) c : r !! i = Some c -> cell_at i r = c.
Proof. unfold cell_at. by intros ->. Qed.

(** C6, as the code has it: in a table with a row whose reference cell has
    a raw value other than -996, [get_last_time] returns the time cell of
    the last such row in row order, the rows after it, all marked -996,
    being passed over: the datetime that the cell holds when the cell is
    valid, and the [masked] constant, not a datetime, when the cell is
    masked.  The mask of the reference cells plays no part. *)
Theorem get_last_time_last_actual_row t ref_field dt_field i j :
  index_of ref_field (names t) = Some i ->
  index_of dt_field (names t) = Some j ->
  well_formed t ->
  Exists (fun r : list cell => exists c, r !! i = Some c /\ ~ future c) (rows t) ->
  exists pre r post cr ct,
    rows t = pre ++ r :: post /\
    r !! i = Some cr /\ ~ future cr /\
    Forall (fun r' : list cell => exists c, r' !! i = Some c /\ future c) post /\
    r !! j = Some ct /\
    (mask ct = false ->
     get_last_time t ref_field dt_field = Ok (Item (data ct))) /\
    (mask ct = true -> get_last_time t ref_field dt_field = Ok Masked).
Proof.
  intros Hi Hj Hwf Hex.
  assert (Hlen : Forall (fun r : list cell =>
                           r !! i = Some (cell_at i r) /\
                           r !! j = Some (cell_at j r)) (rows t)).
  { eapply Forall_impl; [exact Hwf|]. intros r Hr.
    split; apply cell_at_lookup; rewrite Hr; by eapply index_of_lt. }
  assert (Hex' : Exists (fun r => ~ future (cell_at i r)) (rows t)).
  { eapply Exists_impl; [exact Hex|]. intros r (c & Hc & Hnf).
    by rewrite (lookup_cell_at i r c Hc). }
  apply Exists_last_split in Hex' as (pre & r & post & Hrows & Hr & Hpost);
    [|apply _].
  rewrite Hrows in Hlen.
  apply Forall_app in Hlen as [_ Hlen].
  apply Forall_cons in Hlen as [[Hri Hrj] Hlen].
  exists pre, r, post, (cell_at i r), (cell_at j r).
  repeat split; try done.
  - rewrite Forall_forall in Hlen, Hpost |- *. intros r' Hin.
    exists (cell_at i r'). split; [by apply Hlen|].
    destruct (decide (future (cell_at i r'))) as [|Hn]; [done|].
    by destruct (Hpost r' Hin).
  - rewrite (get_last_time_kept t ref_field dt_field i j Hi Hj Hwf), Hrows.
    change (r :: post) with ([r] ++ post).
    rewrite !kept_app, (kept_actual i j r Hr).
    rewrite (kept_future i j post).
    + rewrite app_nil_r, last_snoc. unfold item_of. by intros ->.
    + eapply Forall_impl; [exact Hpost|]. intros r' Hn; simpl in Hn.
      by destruct (decide (future (cell_at i r'))).
  - rewrite (get_last_time_kept t ref_field dt_field i j Hi Hj Hwf), Hrows.
    change (r :: post) with ([r] ++ post).
    rewrite !kept_app, (kept_actual i j r Hr).
    rewrite (kept_future i j post).
    + rewrite app_nil_r, last_snoc. unfold item_of. by intros ->.
    + eapply Forall_impl; [exact Hpost|]. intros r' Hn; simpl in Hn.
      by destruct (decide (future (cell_at i r'))).
Qed.

(** C9: when every row carries -996 in the reference column, no time is
    kept and taking the last one is out of bounds: [get_last_time] raises
    [IndexError] and returns no timestamp. *)
Theorem get_last_time_all_future_raises t ref_field dt_field i j :
  index_of ref_field (names t) = Some i ->
  index_of dt_field (names t) = Some j ->
  well_formed t ->
  Forall (fun r : list cell => exists c, r !! i = Some c /\ future c) (rows t) ->
  get_last_time t ref_field dt_field = Raise IndexError.
Proof.
  intros Hi Hj Hwf Hall.
  rewrite (get_last_time_kept t ref_field dt_field i j Hi Hj Hwf).
  rewrite kept_future; [done|].
  eapply Forall_impl; [exact Hall|]. intros r (c & Hc & Hf).
  by rewrite (lookup_cell_at i r c Hc).
Qed.

Lemma get_last_time_last_actual_row_witness :
  (exists pre r post cr ct,
     rows sample_table = pre ++ r :: post /\
     r !! 1%nat = Some cr /\ ~ future cr /\
     Forall (fun r' : list cell => exists c, r' !! 1%nat = Some c /\ future c)
       post /\
     r !! 0%nat = Some ct /\
     (mask ct = false ->
      get_last_time sample_table "TAIR" "datetime" = Ok (Item (data ct))) /\
     (mask ct = true ->
      get_last_time sample_table "TAIR" "datetime" = Ok Masked)) /\
  get_last_time sample_table "TAIR" "datetime"
  = Ok (Item (VTime (at_minute 0 5))).
Proof.
  split; [|reflexivity].
  apply (get_last_time_last_actual_row sample_table "TAIR" "datetime" 1 0).
  - reflexivity.
  - reflexivity.
  - repeat constructor.
  - apply Exists_cons_hd. eexists. split; [reflexivity|].
    intros (q & [= <-] & H). vm_compute in H. discriminate.
Defined.

(** The row picked is the last in row order, not the one of the latest
    time: the first row of [sample_table] is later than the second. *)
Example get_last_time_sample :
  get_last_time sample_table "TAIR" "datetime"
  = Ok (Item (VTime (at_minute 0 5))).
Proof. reflexivity. Qed.

(** C6 as stated fails: in [masked_time_table] the last row with an actual
    air temperature is the second, of 00:05; its time cell is masked, and
    what comes back is the [masked] constant, not that time and not the
    time of the valid row before it. *)
Lemma get_last_time_masked_time_cell :
  Exists (fun r : list cell => exists c, r !! 1%nat = Some c /\ ~ future c)
    (rows masked_time_table) /\
  rows masked_time_table !! 1%nat
  = Some [mk_cell (VTime (at_minute 0 5)) true;
          mk_cell (VNum (121 # 10)) false] /\
  get_last_time masked_time_table "TAIR" "datetime" = Ok Masked /\
  (forall d, get_last_time masked_time_table "TAIR" "datetime"
             <> Ok (Item (VTime d))).
Proof.
  split; [|split; [reflexivity|split; [reflexivity|]]].
  - apply Exists_cons_hd. eexists. split; [reflexivity|].
    intros (q & [= <-] & H). vm_compute in H. discriminate.
  - intros d. vm_compute. discriminate.
Qed.

Lemma get_last_time_all_future_raises_witness :
  get_last_time future_table "TAIR" "datetime" = Raise IndexError.
Proof.
  apply (get_last_time_all_future_raises future_table "TAIR" "datetime" 1 0).
  - reflexivity.
  - reflexivity.
  - repeat constructor.
  - repeat constructor; eexists; (split; [reflexivity|]);
      eexists; (split; [reflexivity|]); reflexivity.
Defined.

(** ** The memo table *)

Lemma cache_remove_absent k c : cache_get k c = None -> cache_remove k c = c.
Proof.
  induction c as [|[k' v] c IH]; simpl; [done|].
  destruct (decide (k' = k)); [done|]. intros H. by rewrite IH.
Qed.

Lemma cache_get_remove k c : cache_get k (cache_remove k c) = None.
Proof.
  induction c as [|[k' v] c IH]; simpl; [done|].
  destruct (decide (k' = k)) as [|Hne]; [done|]. simpl.
  by destruct (decide (k' = k)).
Qed.

Lemma cache_get_take k n c : cache_get k c = None -> cache_get k (take n c) = None.
Proof.
  revert n. induction c as [|[k' v] c IH]; intros [|n]; simpl; try done.
  destruct (decide (k' = k)); [done|]. apply IH.
Qed.

(** The body of the fetch leaves the memo table alone; it either raises
    before any request or sends exactly one. *)
Lemma fetch_body_inv w k s r s' :
  fetch_body w k s = (r, s') ->
  cache s' = cache s /\
  ((exists e, r = Raise e /\ s' = s) \/
   (exists url, requests s' = requests s ++ [url])).
Proof.
  destruct k as [date_time site]. unfold fetch_body, bind, lift.
  match goal with |- context [match ?x with Ok _ => _ | Raise _ => _ end] =>
    destruct x as [[[data_type dt'] fname]|e] end.
  - unfold request. intros [= <- <-]. simpl. split; [done|]. right. eauto.
  - intros [= <- <-]. split; [done|]. left. eauto.
Qed.

(** C1, as the code has it: the memo table is keyed by the arguments as
    passed.  After a call that returned, a second call with the same
    timestamp and station returns the memoized bytes and leaves the state
    as it is, so it sends no request; a first call that missed the table
    sent exactly one. *)
Theorem fetch_same_arguments_hits_cache w date_time site s body s' :
  _fetch_mesonet_data w date_time site s = (Ok body, s') ->
  _fetch_mesonet_data w date_time site s' = (Ok body, s') /\
  (cache_get (date_time, site) (cache s) = None ->
   exists url, requests s' = requests s ++ [url]).
Proof.
  unfold _fetch_mesonet_data, lru_cache.
  destruct (cache_get (date_time, site) (cache s)) as [v|] eqn:Hget.
  - intros [= <- <-]. simpl. split; [|done].
    destruct (decide ((date_time, site) = (date_time, site))); [|done].
    simpl. destruct (decide ((date_time, site) = (date_time, site))); [|done].
    by rewrite (cache_remove_absent _ _ (cache_get_remove _ _)).
  - destruct (fetch_body w (date_time, site) s) as [[v|e] s1] eqn:Hbody;
      [|done].
    intros [= <- <-]. apply fetch_body_inv in Hbody as [Hc Hr].
    simpl. destruct (decide ((date_time, site) = (date_time, site))); [|done].
    split.
    + simpl. destruct (decide ((date_time, site) = (date_time, site))); [|done].
      rewrite cache_remove_absent; [done|].
      apply cache_get_take. by rewrite Hc.
    + intros _. destruct Hr as [(err & [=] & _)|Hr]; done.
Qed.

Lemma fetch_same_arguments_hits_cache_witness :
  let d := Datetime.mk 2008 11 20 12 7 30 5 in
  let first := _fetch_mesonet_data library_world d (Some "NRMN") empty_state in
  _fetch_mesonet_data library_world d (Some "NRMN") first.2
  = (Ok sample_mts, first.2) /\
  (cache_get (d, Some "NRMN") (cache empty_state) = None ->
   exists url, requests first.2 = requests empty_state ++ [url]).
Proof.
  cbv zeta.
  apply (fetch_same_arguments_hits_cache library_world
           (Datetime.mk 2008 11 20 12 7 30 5) (Some "NRMN") empty_state).
  vm_compute. reflexivity.
Defined.

(** C1 as stated fails: 12:06 and 12:07 floor to the same boundary, yet
    they are different keys.  In an importing program both calls raise
    before any request; with the global [dt] bound both miss the table and
    both send a request, for one and the same file. *)
Lemma fetch_cache_key_is_raw_input :
  let t1 := at_minute 12 6 in
  let t2 := at_minute 12 7 in
  let twice (w : world) :=
    _fetch_mesonet_data w t2 None (_fetch_mesonet_data w t1 None empty_state).2 in
  spec_floor5 t1 = spec_floor5 t2 /\
  twice library_world = (Raise NameError, empty_state) /\
  length (requests (twice library_world).2) <> 1%nat /\
  requests (twice script_world).2
  = [baseurl "/mdf/2008/11/20/200811201200.mdf" "200811201200.mdf";
     baseurl "/mdf/2008/11/20/200811201200.mdf" "200811201200.mdf"] /\
  length (requests (twice script_world).2) <> 1%nat.
Proof. cbv zeta. repeat split; vm_compute; congruence. Qed.

(** C2: the minutes of the snapshot stamp are taken from the module global
    [dt], not from the timestamp passed in.  In a program that imports the
    module every snapshot fetch raises [NameError] before a file name is
    built; with [dt] bound to a day at midnight the call for 12:07:30 asks
    for the file of 12:00, where flooring gives 12:05. *)
Theorem fetch_snapshot_minute_from_global_dt :
  (forall now net stations f g b cast date_time,
     _fetch_mesonet_data (mk_world Unbound now net stations f g b cast)
       date_time None empty_state
     = (Raise NameError, empty_state)) /\
  requests (_fetch_mesonet_data script_world
              (Datetime.mk 2008 11 20 12 7 30 5) None empty_state).2
  = [baseurl "/mdf/2008/11/20/200811201200.mdf" "200811201200.mdf"] /\
  spec_snapshot_filename (Datetime.mk 2008 11 20 12 7 30 5)
  = Ok "200811201205.mdf".
Proof.
  split; [|split; vm_compute; reflexivity].
  intros. reflexivity.
Qed.

(** With a station the fetch does not touch [dt]: the time-series file of
    the day is requested whatever the global holds. *)
Example fetch_time_series_request :
  requests (_fetch_mesonet_data library_world
              (Datetime.mk 2008 11 20 12 7 30 5) (Some "NRMN") empty_state).2
  = [baseurl "/mts/2008/11/20/20081120nrmn.mts" "20081120nrmn.mts"].
Proof. vm_compute. reflexivity. Qed.

(** ** Assembling the current window *)

Lemma fetch_requests w date_time site s :
  let s' := (_fetch_mesonet_data w date_time site s).2 in
  requests s' = requests s \/ exists url, requests s' = requests s ++ [url].
Proof.
  unfold _fetch_mesonet_data, lru_cache. cbv zeta.
  destruct (cache_get (date_time, site) (cache s)); [by left|].
  destruct (fetch_body w (date_time, site) s) as [r s1] eqn:Hbody.
  apply fetch_body_inv in Hbody as [_ Hr].
  destruct r as [v|e]; simpl.
  - destruct Hr as [(err & [=] & _)|Hr]. by right.
  - destruct Hr as [(err & _ & ->)|Hr]; [by left|by right].
Qed.

(** C10: with an explicit [date_time] the call is one fetch and one parse
    of that day and nothing else, whatever [full_day_record] says; at most
    one request leaves the process. *)
Theorem remote_explicit_date_single_fetch w date_time fields site
  rename_fields convert_time lookup_stids full_day_record s :
  remote_mesonet_data w (Some date_time) fields site rename_fields
    convert_time lookup_stids full_day_record s
  = fetch_and_read w date_time fields site rename_fields convert_time
      lookup_stids s /\
  (length (requests (remote_mesonet_data w (Some date_time) fields site
                       rename_fields convert_time lookup_stids
                       full_day_record s).2)
   <= S (length (requests s)))%nat.
Proof.
  assert (Heq : remote_mesonet_data w (Some date_time) fields site
                  rename_fields convert_time lookup_stids full_day_record s
                = fetch_and_read w date_time fields site rename_fields
                    convert_time lookup_stids s).
  { unfold remote_mesonet_data, fetch_and_read, bind, ret, lift.
    destruct (_fetch_mesonet_data w date_time site s) as [[body|e] s1];
      [|done].
    by destruct (read_mesonet_data _ _ _ _ _ _). }
  split; [exact Heq|]. rewrite Heq.
  unfold fetch_and_read, bind, lift.
  pose proof (fetch_requests w date_time site s) as Hreq. cbv zeta in Hreq.
  destruct (_fetch_mesonet_data w date_time site s) as [[body|e] s1];
    simpl in *; destruct Hreq as [->|[url ->]];
    rewrite ?length_app; simpl; lia.
Qed.




(** ** Renaming and the station lookup *)

Lemma rename_not_STID n : rename n <> "STID".
Proof.
  unfold rename.
  destruct (mesonet_inv_var_map !! PyStr.upper n) as [c|] eqn:E; simpl.
  - intros ->. apply dict_invert_lookup in E.
    assert (Hno : mesonet_var_map !! "STID" = None) by (vm_compute; reflexivity).
    congruence.
  - intros ->. vm_compute in E. discriminate.
Qed.

Lemma elem_of_insert_inv {A} (x y : A) i (l : list A) :
  x ∈ <[i := y]> l -> x = y \/ x ∈ l.
Proof.
  revert i. induction l as [|a l IH]; intros [|i]; simpl; try by right.
  - rewrite !elem_of_cons. intros [->|H]; auto.
  - rewrite !elem_of_cons. intros [->|H]; [auto|].
    destruct (IH i H); auto.
Qed.

Lemma lookup_stations_no_STID w t :
  "STID" ∉ names t -> lookup_stations w t = Raise ValueError.
Proof.
  intros H%index_of_None. unfold lookup_stations, field. by rewrite H.
Qed.

Lemma renamed_no_STID (l : list string) : "STID" ∉ rename <$> l.
Proof.
  intros (n & Hn & _)%list_elem_of_fmap. by apply (rename_not_STID n).
Qed.

(** C3: with both [rename_fields] and [lookup_stids] the call never
    returns.  Renaming turns the column STID into [site] before the lookup
    reads [data['STID']], so whenever the file parses the field access
    raises. *)
Theorem rename_then_lookup_raises w filename fields convert_time :
  exists e,
    read_mesonet_data w filename fields true convert_time true = Raise e.
Proof.
  unfold read_mesonet_data.
  destruct (open_source w filename) as [fh|e]; cbn [rbind names set_names]; [|eauto].
  destruct convert_time.
  - destruct (rmap PyStr.int (take 3 (drop 1 (PyStr.split (default "" (fh !! 1%nat))))))
      as [ymd|e]; cbn [rbind names set_names]; [|eauto].
    destruct (Datetime.of_args ymd) as [dt|e]; cbn [rbind names set_names]; [|eauto].
    match goal with |- context [mloadtxt ?a ?b ?c ?d ?m] =>
      destruct (mloadtxt a b c d m) as [data|e]; cbn [rbind names set_names]; [|eauto] end.
    destruct (index_of "TIME" (rename <$> names data)) as [i|]; cbn [rbind names set_names]; [|eauto].
    exists ValueError. apply lookup_stations_no_STID. simpl.
    intros [[=]|H]%elem_of_insert_inv. by apply renamed_no_STID in H.
  - cbn [rbind names set_names].
    match goal with |- context [mloadtxt ?a ?b ?c ?d ?m] =>
      destruct (mloadtxt a b c d m) as [data|e]; cbn [rbind names set_names]; [|eauto] end.
    exists ValueError. apply lookup_stations_no_STID. simpl.
    apply renamed_no_STID.
Qed.

(** On the sample file: without renaming the lookup appends latitude,
    longitude and elevation after the columns of the file; with renaming
    it raises. *)
Example read_with_lookup_sample :
  (try t <- read_mesonet_data library_world (Handle (PyStr.lines sample_mts))
              None false true true in Ok (names t))
  = Ok ["STID"; "STNM"; "datetime"; "RELH"; "TAIR";
        "latitude"; "longitude"; "elevation"] /\
  read_mesonet_data library_world (Handle (PyStr.lines sample_mts))
    None true true true = Raise ValueError.
Proof. split; vm_compute; reflexivity. Qed.

(** ** Missing values *)

Lemma bad_values :
  range_down BAD_DATA_LIMIT (BAD_DATA_LIMIT - 10) (-1)
  = [-990; -991; -992; -993; -994; -995; -996; -997; -998; -999].
Proof. reflexivity. Qed.

Lemma bad_values_band k :
  k ∈ range_down BAD_DATA_LIMIT (BAD_DATA_LIMIT - 10) (-1) <-> -999 <= k <= -990.
Proof.
  rewrite bad_values, !elem_of_cons, elem_of_nil. lia.
Qed.

Lemma missing_entries :
  PyStr.split_on "," missing
  = PyStr.str <$> range_down BAD_DATA_LIMIT (BAD_DATA_LIMIT - 10) (-1).
Proof. vm_compute. reflexivity. Qed.

Lemma bad_value_decimal k :
  -999 <= k <= -990 -> PyStr.decimal (PyStr.str k) = Some (inject_Z k).
Proof.
  intros Hk.
  assert (H : k ∈ [-990; -991; -992; -993; -994; -995; -996; -997; -998; -999])
    by (rewrite !elem_of_cons, elem_of_nil; lia).
  rewrite !elem_of_cons, elem_of_nil in H.
  repeat destruct H as [->|H]; try done; reflexivity.
Qed.

Lemma same_value_number entry k tok :
  PyStr.decimal entry = Some (inject_Z k) ->
  same_value entry tok = true <->
  exists q, PyStr.decimal tok = Some q /\ (q == inject_Z k)%Q.
Proof.
  intros He. unfold same_value. rewrite He.
  destruct (PyStr.decimal tok) as [q|] eqn:Hq.
  - rewrite Qeq_bool_iff. split.
    + intros H. exists q. split; [done|]. by symmetry.
    + intros (q' & [= <-] & H). by symmetry.
  - split.
    + intros ->%String.eqb_eq. congruence.
    + by intros (q' & [=] & _).
Qed.

(** The tokens that [missing] marks are the numbers of the band. *)
Lemma is_missing_band tok :
  is_missing missing tok = true <->
  exists q, PyStr.decimal tok = Some q /\ in_band q.
Proof.
  unfold is_missing, in_band. rewrite missing_entries, existsb_exists.
  split.
  - intros (entry & Hin & Hsame).
    apply list_elem_of_In, list_elem_of_fmap in Hin as (k & -> & Hk).
    apply bad_values_band in Hk.
    apply (same_value_number _ k) in Hsame as (q & Hq & Heq);
      [|by apply bad_value_decimal].
    exists q. split; [done|]. by exists k.
  - intros (q & Hq & k & Hk & Heq).
    exists (PyStr.str k). split.
    + apply list_elem_of_In, list_elem_of_fmap. exists k. split; [done|].
      by apply bad_values_band.
    + apply (same_value_number _ k); [by apply bad_value_decimal|].
      by exists q.
Qed.

Lemma parse_cell_band conv name tok c :
  parse_cell conv missing name tok = Ok c -> band_rule tok c.
Proof.
  unfold parse_cell, band_rule.
  destruct (match conv !! name with
            | Some f => f tok
            | None => Ok (auto_value tok)
            end) as [v|e]; cbn [rbind]; [|done].
  intros [= <-]. cbn [mask]. apply is_missing_band.
Qed.

(** ** The shape of what the reader returns *)

(** Case analysis on the first raising step of a computation that is known
    to return. *)
Ltac case_try H :=
  match type of H with
  | context [rbind ?r _] =>
      let E := fresh "E" in
      destruct r eqn:E; cbn [rbind] in H; [|discriminate H]
  end.

Lemma drop_cons_inv {A} n (l : list A) x l' :
  drop n l = x :: l' -> l !! n = Some x /\ drop (S n) l = l'.
Proof.
  revert l. induction n as [|n IH]; intros [|a l]; simpl; try done.
  - intros [= -> ->]. by rewrite drop_0.
  - apply IH.
Qed.

Lemma Forall2_compose {A B C} (P : A -> B -> Prop) (Q : B -> C -> Prop)
  (R : A -> C -> Prop) l1 l2 l3 :
  (forall a b c, P a b -> Q b c -> R a c) ->
  Forall2 P l1 l2 -> Forall2 Q l2 l3 -> Forall2 R l1 l3.
Proof.
  intros HR H. revert l3. induction H; intros l3 H3; inversion H3; subst;
    constructor; eauto.
Qed.

Lemma Forall2_imap_r {A B} (f : nat -> A -> B) (l : list A) :
  Forall2 (fun x y => exists i, y = f i x) l (imap f l).
Proof.
  revert f. induction l as [|a l IH]; intros f; simpl; constructor.
  - by exists 0%nat.
  - eapply Forall2_impl; [apply IH|]. intros x y [i ->]. by exists (S i).
Qed.

Lemma Forall2_same {A} (P : A -> A -> Prop) (l : list A) :
  (forall x, P x x) -> Forall2 P l l.
Proof. intros H. induction l; constructor; auto. Qed.

Lemma mloadtxt_inv fh usecols skip conv miss t :
  mloadtxt fh usecols skip conv miss = Ok t ->
  exists head body,
    drop skip fh = head :: body /\
    names t = List.filter (selected usecols) (PyStr.split head) /\
    Forall2 (fun line row =>
               length (PyStr.split line) = length (PyStr.split head) /\
               parse_row conv miss usecols (PyStr.split head)
                 (PyStr.split line) = Ok row) body (rows t).
Proof.
  unfold mloadtxt. destruct (drop skip fh) as [|head body]; [done|].
  intros H. case_try H. injection H as <-.
  exists head, body. split; [done|]. split; [done|]. cbn [rows].
  apply rmap_Forall2 in E. eapply Forall2_impl; [exact E|].
  intros line row Hrow; simpl in Hrow.
  destruct (length (PyStr.split line) =? length (PyStr.split head))%nat eqn:El;
    [|done].
  by apply Nat.eqb_eq in El.
Qed.

Lemma lookup_stations_rows w data t :
  lookup_stations w data = Ok t ->
  Forall2 (fun row0 row => exists extra, row = row0 ++ extra)
          (rows data) (rows t).
Proof.
  unfold lookup_stations. intros H. do 5 case_try H. injection H as <-.
  cbn [rows rec_append_fields].
  eapply Forall2_impl; [apply Forall2_imap_r|].
  intros row0 row [i ->]. eauto.
Qed.

(** The records of the table that [read_mesonet_data] returns: line by
    line, the cells parsed from the tokens that are read, followed by what
    the station lookup appends. *)
Lemma read_mesonet_data_rows w fh fields rename_fields convert_time
  lookup_stids t :
  read_mesonet_data w (Handle fh) fields rename_fields convert_time
    lookup_stids = Ok t ->
  exists conv head body,
    drop 2 fh = head :: body /\
    Forall2 (fun line row =>
               exists cells extra,
                 row = cells ++ extra /\
                 parse_row conv missing (upper_fields fields)
                   (PyStr.split head) (PyStr.split line) = Ok cells)
            body (rows t).
Proof.
  unfold read_mesonet_data. cbn [open_source rbind]. intros H.
  assert (Hcore : exists conv data data',
             mloadtxt (drop 2 fh) (upper_fields fields) 0 conv missing
             = Ok data /\
             rows data' = rows data /\
             (if lookup_stids then lookup_stations w data' else Ok data')
             = Ok t).
  { destruct convert_time.
    - case_try H. destruct a as [[fh' skip] conv].
      do 2 case_try E. injection E as <- <- <-.
      case_try H. rename E into Hload. case_try H.
      eexists _, _, _. split; [exact Hload|]. split; [|exact H].
      destruct rename_fields; destruct (index_of "TIME" _);
        try discriminate E; by injection E as <-.
    - cbn [rbind] in H. case_try H. cbn [rbind] in H.
      eexists ∅, _, _. split; [|split; [|exact H]].
      + unfold mloadtxt in E |- *. rewrite drop_0. exact E.
      + by destruct rename_fields. }
  destruct Hcore as (conv & data & data' & Hload & Hrows & Hlast).
  apply mloadtxt_inv in Hload as (head & body & Hdrop & _ & Hbody).
  rewrite drop_0 in Hdrop.
  exists conv, head, body. split; [done|].
  assert (Hext : Forall2 (fun row0 row => exists extra, row = row0 ++ extra)
                   (rows data) (rows t)).
  { destruct lookup_stids.
    - rewrite <- Hrows. by apply (lookup_stations_rows w).
    - injection Hlast as <-. rewrite Hrows. apply Forall2_same.
      intros x. exists []. by rewrite app_nil_r. }
  eapply Forall2_compose; [|exact Hbody|exact Hext].
  intros line cells row [_ Hcells] [extra ->]. eauto.
Qed.

(** C4: every cell that [read_mesonet_data] parses, in whatever column,
    is marked invalid when the value of its token is one of the ten
    integers from -990 down to -999, and is not marked by this rule
    otherwise.  Line by line, the record starts with the cells of the
    tokens read, and each of them follows the rule. *)
Theorem missing_band_masks_cell w fh fields rename_fields convert_time
  lookup_stids t :
  read_mesonet_data w (Handle fh) fields rename_fields convert_time
    lookup_stids = Ok t ->
  exists head,
    fh !! 2%nat = Some head /\
    Forall2 (fun line row =>
               exists cells extra,
                 row = cells ++ extra /\
                 Forall2 (fun (p : string * string) c => band_rule p.2 c)
                   (selected_tokens (upper_fields fields) (PyStr.split head)
                      (PyStr.split line))
                   cells)
            (drop 3 fh) (rows t).
Proof.
  intros (conv & head & body & Hdrop & Hrows)%read_mesonet_data_rows.
  apply drop_cons_inv in Hdrop as [Hhead <-].
  exists head. split; [done|].
  eapply Forall2_impl; [exact Hrows|].
  intros line row (cells & extra & -> & Hcells).
  exists cells, extra. split; [done|].
  apply rmap_Forall2 in Hcells. eapply Forall2_impl; [exact Hcells|].
  intros p c Hc. exact (parse_cell_band conv p.1 p.2 c Hc).
Qed.

Lemma missing_band_masks_cell_witness :
  exists head,
    PyStr.lines sample_mts !! 2%nat = Some head /\
    Forall2 (fun line row =>
               exists cells extra,
                 row = cells ++ extra /\
                 Forall2 (fun (p : string * string) c => band_rule p.2 c)
                   (selected_tokens
                      (upper_fields (Some ["stid"; "time"; "tair"]))
                      (PyStr.split head) (PyStr.split line))
                   cells)
            (drop 3 (PyStr.lines sample_mts)) (rows sample_parsed).
Proof.
  apply (missing_band_masks_cell library_world (PyStr.lines sample_mts)
           (Some ["stid"; "time"; "tair"]) false true false sample_parsed).
  vm_compute. reflexivity.
Defined.

(** The two ends of the band, and a token written with a decimal point. *)
Example is_missing_boundaries :
  is_missing missing "-990" = true /\ is_missing missing "-999" = true /\
  is_missing missing "-989" = false /\ is_missing missing "-1000" = false /\
  is_missing missing "-996.0" = true /\ is_missing missing "NRMN" = false.
Proof. repeat split; vm_compute; reflexivity. Qed.

(** ** The calendar

    [ord2ymd] undoes [ymd2ord] on every date of the calendar, and adding
    the minutes of a time of day to a midnight stays within the day. *)

Ltac dlia := Z.div_mod_to_equations; lia.

Lemma year_cycles p :
  0 <= p ->
  exists a b c e,
    p = 400 * a + 100 * b + 4 * c + e /\
    0 <= a /\ 0 <= b <= 3 /\ 0 <= c <= 24 /\ 0 <= e <= 3 /\
    p / 4 = 100 * a + 25 * b + c /\ p / 100 = 4 * a + b /\ p / 400 = a /\
    Datetime.is_leap (p + 1)
    = (e =? 3) && (negb (c =? 24) || (b =? 3)).
Proof.
  intros Hp.
  exists (p / 400), (p mod 400 / 100), (p mod 100 / 4), (p mod 4).
  repeat (split; [dlia|]).
  unfold Datetime.is_leap.
  repeat match goal with
         | |- context [?x =? ?y] => destruct (Z.eqb_spec x y)
         end; cbn; try reflexivity; exfalso; dlia.
Qed.

Lemma cycle_div n q r : 0 <= r < n -> (n * q + r) / n = q.
Proof. intros H. symmetry. apply (Z.div_unique _ _ _ r); lia. Qed.

Lemma cycle_mod n q r : 0 <= r < n -> (n * q + r) mod n = r.
Proof. intros H. symmetry. apply (Z.mod_unique _ _ q r); lia. Qed.

Lemma ord2ymd_cycles a b c e k :
  0 <= a -> 0 <= b <= 3 -> 0 <= c <= 24 -> 0 <= e <= 3 -> 0 <= k <= 364 ->
  Datetime.ord2ymd (146097 * a + (36524 * b + (1461 * c + (365 * e + k))) + 1)
  = let '(m, d) := month_and_day ((e =? 3) && (negb (c =? 24) || (b =? 3))) k in
    (400 * a + 100 * b + 4 * c + e + 1, m, d).
Proof.
  intros Ha Hb Hc He Hk.
  unfold Datetime.ord2ymd, Datetime.DI400Y, Datetime.DI100Y, Datetime.DI4Y.
  cbv zeta.
  replace (146097 * a + (36524 * b + (1461 * c + (365 * e + k))) + 1 - 1)
    with (146097 * a + (36524 * b + (1461 * c + (365 * e + k)))) by lia.
  rewrite !(cycle_div 146097 a), !(cycle_mod 146097 a) by lia.
  rewrite !(cycle_div 36524 b), !(cycle_mod 36524 b) by lia.
  rewrite !(cycle_div 1461 c), !(cycle_mod 1461 c) by lia.
  rewrite !(cycle_div 365 e), !(cycle_mod 365 e) by lia.
  destruct (Z.eqb_spec e 4); [lia|]. destruct (Z.eqb_spec b 4); [lia|].
  cbn [orb]. unfold month_and_day. cbv zeta.
  destruct (k <? _); f_equal; f_equal; lia.
Qed.

Lemma ord2ymd_last_day_of_leap_year a b c e :
  0 <= a -> 0 <= b <= 3 -> 0 <= c <= 24 -> e = 3 -> (c <> 24 \/ b = 3) ->
  Datetime.ord2ymd (146097 * a + (36524 * b + (1461 * c + (365 * e + 365))) + 1)
  = (400 * a + 100 * b + 4 * c + e + 1, 12, 31).
Proof.
  intros Ha Hb Hc -> Hcb.
  unfold Datetime.ord2ymd, Datetime.DI400Y, Datetime.DI100Y, Datetime.DI4Y.
  cbv zeta.
  replace (146097 * a + (36524 * b + (1461 * c + (365 * 3 + 365))) + 1 - 1)
    with (146097 * a + (36524 * b + (1461 * c + (365 * 4 + 0)))) by lia.
  rewrite !(cycle_div 146097 a), !(cycle_mod 146097 a) by lia.
  destruct (Z.eq_dec c 24) as [->|Hc24].
  - assert (b = 3) as -> by lia.
    replace (36524 * 3 + (1461 * 24 + (365 * 4 + 0))) with (36524 * 4 + 0)
      by lia.
    rewrite !(cycle_div 36524 4), !(cycle_mod 36524 4) by lia.
    change (4 =? 4) with true. rewrite orb_true_r.
    change (0 / 1461) with 0. change (0 mod 1461) with 0.
    change (0 / 365) with 0. f_equal; f_equal; lia.
  - rewrite !(cycle_div 36524 b), !(cycle_mod 36524 b) by lia.
    rewrite !(cycle_div 1461 c), !(cycle_mod 1461 c) by lia.
    rewrite !(cycle_div 365 4), !(cycle_mod 365 4) by lia.
    change (4 =? 4) with true. cbn [orb]. f_equal; f_equal; lia.
Qed.

Ltac closed_lookups :=
  repeat match goal with
         | |- context [nth ?i ?t ?d] =>
             let v := eval vm_compute in (nth i t d) in
             match v with
             | Z0 => idtac | Zpos _ => idtac | Zneg _ => idtac
             end;
             change (nth i t d) with v
         | H : context [nth ?i ?t ?d] |- _ =>
             let v := eval vm_compute in (nth i t d) in
             match v with
             | Z0 => idtac | Zpos _ => idtac | Zneg _ => idtac
             end;
             change (nth i t d) with v in H
         end.

Ltac closed_tests :=
  repeat match goal with
         | |- context [if ?b then _ else _] =>
             let v := eval vm_compute in b in
             match v with
             | true => change b with true
             | false => change b with false
             end; cbv iota
         | H : context [if ?b then _ else _] |- _ =>
             let v := eval vm_compute in b in
             match v with
             | true => change b with true in H
             | false => change b with false in H
             end; cbv iota in H
         end.

Lemma month_and_day_of m d leap n :
  1 <= m <= 12 ->
  1 <= d <= nth (Z.to_nat m) Datetime.days_in_month_table 0
            + (if (m =? 2) && leap then 1 else 0) ->
  n = nth (Z.to_nat (m - 1)) Datetime.days_before_month_table 0
      + (if (2 <? m) && leap then 1 else 0) + d - 1 ->
  n <= 364 ->
  month_and_day leap n = (m, d).
Proof.
  intros Hm Hd Hn Hk.
  assert (Hcases : m = 1 \/ m = 2 \/ m = 3 \/ m = 4 \/ m = 5 \/ m = 6 \/
                   m = 7 \/ m = 8 \/ m = 9 \/ m = 10 \/ m = 11 \/ m = 12)
    by lia.
  unfold month_and_day. cbv zeta.
  rewrite !Z.shiftr_div_pow2 by lia. change (2 ^ 5) with 32.
  remember ((n + 50) / 32) as q eqn:Hq.
  repeat (destruct Hcases as [->|Hcases]); try subst m;
    destruct leap; closed_lookups; closed_tests;
    match goal with
    | |- _ = (?m, _) =>
        assert (Hq' : q = m \/ q = m + 1) by (subst q; dlia);
        destruct Hq' as [Hq'|Hq']; rewrite Hq';
        closed_lookups; closed_tests;
        match goal with
        | |- context [n <? ?p] => destruct (Z.ltb_spec n p)
        end; try (exfalso; dlia); cbv beta iota; f_equal; lia
    end.
Qed.

Lemma day_of_year y m d :
  1 <= m <= 12 -> 1 <= d <= Datetime.days_in_month y m ->
  let leap := Datetime.is_leap y in
  let n := Datetime.days_before_month y m + d - 1 in
  1 <= d <= nth (Z.to_nat m) Datetime.days_in_month_table 0
            + (if (m =? 2) && leap then 1 else 0) /\
  n = nth (Z.to_nat (m - 1)) Datetime.days_before_month_table 0
      + (if (2 <? m) && leap then 1 else 0) + d - 1 /\
  0 <= n <= 364 + (if leap then 1 else 0) /\
  (n = 365 -> m = 12 /\ d = 31).
Proof.
  intros Hm. unfold Datetime.days_before_month, Datetime.days_in_month.
  cbv zeta. generalize (Datetime.is_leap y). intros leap.
  assert (Hcases : m = 1 \/ m = 2 \/ m = 3 \/ m = 4 \/ m = 5 \/ m = 6 \/
                   m = 7 \/ m = 8 \/ m = 9 \/ m = 10 \/ m = 11 \/ m = 12)
    by lia.
  repeat (destruct Hcases as [->|Hcases]); try subst m;
    destruct leap; closed_lookups; closed_tests; lia.
Qed.

Lemma ymd2ord_cycles y m d :
  1 <= y -> 1 <= m <= 12 -> 1 <= d <= Datetime.days_in_month y m ->
  exists a b c e n,
    0 <= a /\ 0 <= b <= 3 /\ 0 <= c <= 24 /\ 0 <= e <= 3 /\
    y = 400 * a + 100 * b + 4 * c + e + 1 /\
    Datetime.is_leap y = (e =? 3) && (negb (c =? 24) || (b =? 3)) /\
    n = Datetime.days_before_month y m + d - 1 /\
    Datetime.ymd2ord y m d
    = 146097 * a + (36524 * b + (1461 * c + (365 * e + n))) + 1.
Proof.
  intros Hy Hm Hd.
  destruct (year_cycles (y - 1))
    as (a & b & c & e & Hp & Ha & Hb & Hc & He & H4 & H100 & H400 & Hleap);
    [lia|].
  replace (y - 1 + 1) with y in Hleap by lia.
  exists a, b, c, e, (Datetime.days_before_month y m + d - 1).
  repeat (split; [lia || done|]).
  unfold Datetime.ymd2ord, Datetime.days_before_year. cbv zeta.
  rewrite H4, H100, H400. lia.
Qed.

Lemma ord2ymd_ymd2ord y m d :
  1 <= y -> 1 <= m <= 12 -> 1 <= d <= Datetime.days_in_month y m ->
  Datetime.ord2ymd (Datetime.ymd2ord y m d) = (y, m, d).
Proof.
  intros Hy Hm Hd.
  destruct (ymd2ord_cycles y m d Hy Hm Hd)
    as (a & b & c & e & n & Ha & Hb & Hc & He & Hyear & Hleap & Hn & ->).
  destruct (day_of_year y m d Hm Hd) as (Hday & Hnth & Hrange & Hlast).
  cbv zeta in *. rewrite <- Hn in Hnth, Hrange, Hlast.
  destruct (Z.eq_dec n 365) as [H365|H365].
  - destruct (Hlast H365) as [-> ->]. rewrite H365.
    destruct (Datetime.is_leap y); [|lia].
    symmetry in Hleap. apply andb_true_iff in Hleap as [He3 Hcb].
    apply Z.eqb_eq in He3.
    rewrite ord2ymd_last_day_of_leap_year; [f_equal; f_equal; lia|lia..|].
    apply orb_true_iff in Hcb as [Hcb|Hcb].
    + left. apply negb_true_iff in Hcb. by apply Z.eqb_neq in Hcb.
    + right. by apply Z.eqb_eq.
  - rewrite ord2ymd_cycles by (try lia; destruct (Datetime.is_leap y); lia).
    rewrite <- Hleap.
    rewrite (month_and_day_of m d _ n Hm Hday Hnth)
      by (destruct (Datetime.is_leap y); lia).
    f_equal. f_equal. lia.
Qed.

Lemma ymd2ord_in_range y m d :
  1 <= y <= 9999 -> 1 <= m <= 12 -> 1 <= d <= Datetime.days_in_month y m ->
  1 <= Datetime.ymd2ord y m d <= Datetime.MAXORDINAL.
Proof.
  intros Hy Hm Hd.
  destruct (ymd2ord_cycles y m d ltac:(lia) Hm Hd)
    as (a & b & c & e & n & Ha & Hb & Hc & He & Hyear & Hleap & Hn & ->).
  destruct (day_of_year y m d Hm Hd) as (_ & _ & Hrange & _).
  cbv zeta in *. rewrite <- Hn in Hrange. unfold Datetime.MAXORDINAL.
  destruct (Datetime.is_leap y).
  - symmetry in Hleap. apply andb_true_iff in Hleap as [He3 Hcb].
    apply Z.eqb_eq in He3. lia.
  - lia.
Qed.

Lemma valid_date r :
  Datetime.valid r = true ->
  1 <= Datetime.year r <= 9999 /\ 1 <= Datetime.month r <= 12 /\
  1 <= Datetime.day r
    <= Datetime.days_in_month (Datetime.year r) (Datetime.month r).
Proof.
  unfold Datetime.valid, Datetime.in_range, Datetime.MINYEAR, Datetime.MAXYEAR.
  rewrite !andb_true_iff, !Z.leb_le. lia.
Qed.

(** A date line that makes a date makes the midnight of a day of the
    calendar. *)
Lemma of_args_ok args ref :
  Datetime.of_args args = Ok ref ->
  Datetime.valid ref = true /\
  ref = Datetime.mk (Datetime.year ref) (Datetime.month ref)
          (Datetime.day ref) 0 0 0 0.
Proof.
  unfold Datetime.of_args, Datetime.new.
  destruct args as [|y [|m [|d [|? ?]]]]; try done.
  destruct (forallb _ _); [|done].
  destruct (Datetime.valid _) eqn:Hvalid; [|done].
  by intros [= <-].
Qed.

(** Adding the minutes of a time of day to the midnight of a day of the
    calendar stays within the day. *)
Lemma minutes_after_midnight ref n :
  Datetime.valid ref = true ->
  ref = Datetime.mk (Datetime.year ref) (Datetime.month ref)
          (Datetime.day ref) 0 0 0 0 ->
  0 <= n < 1440 ->
  minutes_after ref n = Ok (spec_time_of_day ref n).
Proof.
  intros Hvalid Href Hn. apply valid_date in Hvalid as (Hy & Hm & Hd).
  destruct ref as [y m d h mi s us]. cbn in Hy, Hm, Hd, Href.
  injection Href as -> -> -> ->.
  pose proof (ymd2ord_in_range y m d Hy Hm Hd) as Hord.
  unfold Datetime.MAXORDINAL in Hord.
  unfold minutes_after, Datetime.timedelta_minutes, Datetime.normalise.
  cbv zeta.
  change (0 / 1000000) with 0. change (0 mod 1000000) with 0.
  replace ((n * 60 + 0) / 86400) with 0 by dlia.
  replace ((n * 60 + 0) mod 86400) with (n * 60) by dlia.
  change (Datetime.in_range (-999999999) (0 + 0) 999999999) with true.
  cbn [rbind].
  unfold Datetime.add, Datetime.normalise, Datetime.toordinal. cbv zeta.
  cbn [Datetime.year Datetime.month Datetime.day Datetime.hour
       Datetime.minute Datetime.second Datetime.microsecond
       Datetime.days Datetime.seconds Datetime.microseconds].
  change ((0 + 0) / 1000000) with 0. change ((0 + 0) mod 1000000) with 0.
  replace (0 * 3600 + 0 * 60 + 0 + n * 60 + 0) with (n * 60) by lia.
  replace (n * 60 / 86400) with 0 by dlia.
  replace (n * 60 mod 86400) with (n * 60) by dlia.
  rewrite !Z.add_0_r.
  replace (Datetime.in_range (-999999999) (Datetime.ymd2ord y m d) 999999999)
    with true
    by (unfold Datetime.in_range; symmetry;
        apply andb_true_iff; split; apply Z.leb_le; lia).
  cbn [rbind Datetime.days Datetime.seconds Datetime.microseconds].
  replace ((0 <? Datetime.ymd2ord y m d)
           && (Datetime.ymd2ord y m d <=? Datetime.MAXORDINAL)) with true
    by (symmetry; apply andb_true_iff; split;
        [apply Z.ltb_lt|apply Z.leb_le]; unfold Datetime.MAXORDINAL; lia).
  rewrite (ord2ymd_ymd2ord y m d) by lia.
  unfold spec_time_of_day.
  cbn [Datetime.year Datetime.month Datetime.day].
  f_equal. f_equal; dlia.
Qed.

(** ** Converting the time column *)

Lemma rename_cases n :
  rename n = n \/ exists raw, mesonet_var_map !! rename n = Some raw.
Proof.
  unfold rename.
  destruct (mesonet_inv_var_map !! PyStr.upper n) as [c|] eqn:E; simpl.
  - right. exists (PyStr.upper n). by apply dict_invert_lookup.
  - by left.
Qed.

Lemma rename_TIME n : rename n = "TIME" <-> n = "TIME".
Proof.
  split.
  - intros H. destruct (rename_cases n) as [Hn|[raw Hraw]]; [congruence|].
    rewrite H in Hraw. vm_compute in Hraw. discriminate.
  - intros ->. vm_compute. reflexivity.
Qed.

Lemma rename_datetime n : rename n = "datetime" -> n = "datetime".
Proof.
  intros H. destruct (rename_cases n) as [Hn|[raw Hraw]]; [congruence|].
  rewrite H in Hraw. vm_compute in Hraw. discriminate.
Qed.

Lemma index_of_lookup x l i :
  l !! i = Some x -> (forall k, (k < i)%nat -> l !! k <> Some x) ->
  index_of x l = Some i.
Proof.
  revert i. induction l as [|y l IH]; intros [|i]; simpl; try done.
  - intros [= ->] _. by rewrite String.eqb_refl.
  - intros Hi Hlt. destruct (String.eqb x y) eqn:E.
    + apply String.eqb_eq in E as ->. destruct (Hlt 0%nat); [lia|done].
    + rewrite (IH i Hi); [done|]. intros k Hk. apply (Hlt (S k)). lia.
Qed.

Lemma index_of_elem x l : x ∈ l -> exists i, index_of x l = Some i.
Proof.
  intros H. destruct (index_of x l) as [i|] eqn:E; [eauto|].
  by apply index_of_None in E.
Qed.

Lemma selected_tokens_names usecols header toks :
  length toks = length header ->
  (selected_tokens usecols header toks).*1
  = List.filter (selected usecols) header.
Proof.
  unfold selected_tokens. revert toks.
  induction header as [|h header IH]; intros [|tok toks]; simpl; try done.
  intros [= Hlen]. destruct (selected usecols h); cbn; rewrite IH; done.
Qed.

Lemma selected_tokens_zip usecols header toks p :
  p ∈ selected_tokens usecols header toks -> p ∈ zip header toks.
Proof.
  unfold selected_tokens. intros H%list_elem_of_In. apply list_elem_of_In.
  by apply filter_In in H as [H _].
Qed.

(** In a header without repetition a name stands for one token. *)
Lemma zip_unique_token (header toks : list string) i x tok p :
  NoDup header -> header !! i = Some x -> toks !! i = Some tok ->
  p ∈ zip header toks -> p.1 = x -> p.2 = tok.
Proof.
  intros Hnd Hx Htok [k Hk]%list_elem_of_lookup Hp.
  apply lookup_zip_with_Some in Hk as (a & b & -> & Ha & Hb). simpl in *.
  subst a. assert (k = i) as -> by by eapply NoDup_lookup.
  congruence.
Qed.

Lemma time_converter_ok ref tok n d :
  PyStr.int tok = Ok n -> minutes_after ref n = Ok d ->
  time_converter ref tok = Ok (VTime d).
Proof.
  unfold time_converter, minutes_after. intros -> H. cbn [rbind].
  destruct (Datetime.timedelta_minutes n) as [delta|e]; cbn [rbind] in *;
    [|done].
  by rewrite H.
Qed.

Lemma parse_cell_with_time ref d tok (p : string * string) :
  time_converter ref tok = Ok (VTime d) ->
  (p.1 = "TIME" -> p.2 = tok) ->
  parse_cell {[ "TIME" := time_converter ref ]} missing p.1 p.2
  = Ok (cell_with_time d p).
Proof.
  intros Hconv Htok. unfold parse_cell, cell_with_time.
  destruct (String.eqb p.1 "TIME") eqn:E.
  - apply String.eqb_eq in E. rewrite E, lookup_singleton_eq.
    rewrite (Htok E), Hconv. done.
  - apply String.eqb_neq in E. by rewrite lookup_singleton_ne.
Qed.

Lemma index_of_fmap (f : string -> string) x l :
  (forall n, f n = x <-> n = x) -> index_of x (f <$> l) = index_of x l.
Proof.
  intros Hf. induction l as [|y l IH]; [done|]. cbn. rewrite IH.
  destruct (String.eqb x y) eqn:E.
  - apply String.eqb_eq in E as <-.
    by rewrite (proj2 (Hf x) eq_refl), String.eqb_refl.
  - apply String.eqb_neq in E.
    destruct (String.eqb x (f y)) eqn:E'; [|done].
    apply String.eqb_eq in E'. symmetry in E'. apply (proj1 (Hf y)) in E'.
    congruence.
Qed.

Lemma elem_of_insert_other {A} (x y : A) j (l : list A) :
  x ∈ <[j := y]> l -> x = y \/ exists k, k <> j /\ l !! k = Some x.
Proof.
  intros [k Hk]%list_elem_of_lookup.
  destruct (decide (k = j)) as [->|Hne].
  - left. assert (j < length l)%nat as Hj.
    { apply lookup_lt_Some in Hk. by rewrite length_insert in Hk. }
    rewrite list_lookup_insert_eq in Hk by done. congruence.
  - right. exists k. split; [done|].
    by rewrite list_lookup_insert_ne in Hk.
Qed.

Lemma Forall_exists_Forall2 {A B} (P : A -> B -> Prop) (l : list A) :
  Forall (fun a => exists b, P a b) l -> exists l', Forall2 P l l'.
Proof.
  induction 1 as [|a l [b Hb] _ [l' IH]].
  - exists []. constructor.
  - exists (b :: l'). by constructor.
Qed.

Lemma datetime_not_a_variable : "datetime" ∉ mesonet_vars.
Proof.
  unfold mesonet_vars. rewrite !elem_of_cons, elem_of_nil.
  intuition discriminate.
Qed.

Lemma selected_token_at usecols header toks i x tok j :
  NoDup header -> header !! i = Some x -> toks !! i = Some tok ->
  length toks = length header ->
  index_of x (List.filter (selected usecols) header) = Some j ->
  selected_tokens usecols header toks !! j = Some (x, tok).
Proof.
  intros Hnd Hx Htok Hlen [Hj _]%index_of_Some.
  rewrite <- (selected_tokens_names usecols header toks Hlen) in Hj.
  apply list_lookup_fmap_Some in Hj as (p & Hp1 & Hp).
  rewrite Hp. f_equal. destruct p as [p1 p2]. cbn in Hp1. subst p1. f_equal.
  apply (zip_unique_token header toks i x tok (x, p2)); try done.
  eapply selected_tokens_zip, list_elem_of_lookup_2, Hp.
Qed.

(** Reading one line whose time token is [tok]: every token read gives
    its cell, that of the time column holding the converted time. *)
Lemma parse_row_cells usecols header toks ref i tok n d :
  NoDup header -> header !! i = Some "TIME" ->
  toks !! i = Some tok ->
  PyStr.int tok = Ok n -> minutes_after ref n = Ok d ->
  parse_row {[ "TIME" := time_converter ref ]} missing usecols header toks
  = Ok (cell_with_time d <$> selected_tokens usecols header toks).
Proof.
  intros Hnd Hi Htok Hint Hd.
  unfold parse_row. apply rmap_ok, Forall_forall. intros p Hp.
  apply (parse_cell_with_time ref d tok).
  - by apply time_converter_ok with n.
  - intros Hp1. apply selected_tokens_zip in Hp. by eapply zip_unique_token.
Qed.

Lemma index_of_app_l x l l' i :
  index_of x l = Some i -> index_of x (l ++ l') = Some i.
Proof.
  revert i. induction l as [|y l IH]; intros i; simpl; [done|].
  destruct (String.eqb x y); [done|].
  destruct (index_of x l) as [k|]; [|done]. by rewrite (IH k eq_refl).
Qed.

Lemma index_of_insert_ne x y l i j :
  index_of x l = Some i -> i <> j -> y <> x ->
  index_of x (<[j := y]> l) = Some i.
Proof.
  intros [Hi Hfirst]%index_of_Some Hij Hyx. apply index_of_lookup.
  - by rewrite list_lookup_insert_ne.
  - intros k Hk. destruct (decide (k = j)) as [->|Hkj].
    + intros Hl. apply list_lookup_insert_Some in Hl as [(_ & ? & _)|[? _]];
        congruence.
    + rewrite list_lookup_insert_ne by done. by apply Hfirst.
Qed.

(** The call without the station lookup, on a stream of a title line, a
    date line, a header and data lines whose TIME token is a time of day:
    the table returned, with the position [j] of the time column among
    the columns read and, line by line, the cells of the tokens read. *)
Lemma read_time_table (P : string -> Prop) w title dateline head body fields
  (rename_fields : bool) ref i :
  spec_reference_date dateline = Ok ref ->
  valid_header (PyStr.split head) ->
  index_of "TIME" (PyStr.split head) = Some i ->
  selected (upper_fields fields) "TIME" = true ->
  Forall (fun line =>
            (length (PyStr.split line) = length (PyStr.split head) /\
             exists tok n,
               PyStr.split line !! i = Some tok /\ PyStr.int tok = Ok n /\
               0 <= n < 1440) /\ P line) body ->
  let cols := List.filter (selected (upper_fields fields)) (PyStr.split head) in
  let f : string -> string := if rename_fields then rename else id in
  exists j rows0,
    index_of "TIME" cols = Some j /\
    read_mesonet_data w (Handle (title :: dateline :: head :: body)) fields
      rename_fields true false
    = Ok (mk_table (<[j := "datetime"]> (f <$> cols)) rows0) /\
    index_of "datetime" (<[j := "datetime"]> (f <$> cols)) = Some j /\
    ("TIME" ∉ <[j := "datetime"]> (f <$> cols)) /\
    Forall2 (fun line row =>
               P line /\
               length (PyStr.split line) = length (PyStr.split head) /\
               exists tok n,
                 PyStr.split line !! i = Some tok /\ PyStr.int tok = Ok n /\
                 0 <= n < 1440 /\
                 row = cell_with_time (spec_time_of_day ref n)
                       <$> selected_tokens (upper_fields fields)
                             (PyStr.split head) (PyStr.split line))
            body rows0.
Proof.
  intros Href [Hnd Hvars] Hi Hsel Hbody cols f.
  set (header := PyStr.split head) in *.
  set (usecols := upper_fields fields) in *.
  set (conv := ({[ "TIME" := time_converter ref ]} : gmap string converter)).
  pose proof (index_of_Some _ _ _ Hi) as [Hheader _].
  assert (Hmidnight : Datetime.valid ref = true /\
                      ref = Datetime.mk (Datetime.year ref)
                              (Datetime.month ref) (Datetime.day ref) 0 0 0 0).
  { unfold spec_reference_date in Href. case_try Href. cbn [rbind] in Href.
    by eapply of_args_ok. }
  destruct Hmidnight as [Hvalid Hzero].
  assert (Hcols : NoDup cols).
  { apply NoDup_ListNoDup, List.NoDup_filter. by apply NoDup_ListNoDup. }
  assert (Hsub : forall x, x ∈ cols -> x ∈ header).
  { intros x Hx%list_elem_of_In. apply list_elem_of_In.
    by apply filter_In in Hx as [Hx _]. }
  destruct (index_of_elem "TIME" cols) as [j Hj].
  { apply list_elem_of_In, filter_In. split; [|done].
    apply list_elem_of_In. by eapply list_elem_of_lookup_2. }
  (* the records *)
  destruct (Forall_exists_Forall2
              (fun line row =>
                 parse_row conv missing usecols header (PyStr.split line)
                 = Ok row /\
                 P line /\
                 length (PyStr.split line) = length header /\
                 exists tok n,
                   PyStr.split line !! i = Some tok /\ PyStr.int tok = Ok n /\
                   0 <= n < 1440 /\
                   row = cell_with_time (spec_time_of_day ref n)
                         <$> selected_tokens usecols header (PyStr.split line))
              body) as [rows0 Hrows].
  { eapply Forall_impl; [exact Hbody|].
    intros line [(Hlen & tok & n & Htok & Hint & Hn) HP].
    eexists. split; [|split; [exact HP|split; [exact Hlen|]]].
    - apply (parse_row_cells usecols header (PyStr.split line) ref i tok n);
        try done.
      by apply minutes_after_midnight.
    - exists tok, n. eauto. }
  assert (Hload : mloadtxt (head :: body) usecols 0 conv missing
                  = Ok (mk_table cols rows0)).
  { unfold mloadtxt. cbn [drop]. fold header.
    match goal with |- context [rmap ?g body] =>
      assert (Hr : rmap g body = Ok rows0) end.
    { apply rmap_Forall2. eapply Forall2_impl; [exact Hrows|].
      intros line row (Hrow & _ & Hlen & _). cbn beta.
      by rewrite Hlen, Nat.eqb_refl. }
    rewrite Hr. done. }
  (* the names after the two renamings *)
  assert (HfT : forall n, f n = "TIME" <-> n = "TIME").
  { intros n. unfold f. destruct rename_fields; [apply rename_TIME|done]. }
  assert (Hfd : forall n, f n = "datetime" -> n = "datetime").
  { intros n. unfold f. destruct rename_fields; [apply rename_datetime|done]. }
  assert (Hrenamed :
            (if rename_fields
             then set_names (mk_table cols rows0)
                    (rename <$> names (mk_table cols rows0))
             else mk_table cols rows0)
            = mk_table (f <$> cols) rows0).
  { unfold f. destruct rename_fields; [done|]. by rewrite list_fmap_id. }
  assert (Hj' : index_of "TIME" (f <$> cols) = Some j)
    by by rewrite index_of_fmap.
  assert (Hjlt : (j < length (f <$> cols))%nat) by by eapply index_of_lt.
  exists j, rows0. split; [done|]. split; [|split; [|split]].
  - unfold read_mesonet_data. cbn [open_source rbind].
    change (default "" ((title :: dateline :: head :: body) !! 1%nat))
      with dateline.
    change (drop 2 (title :: dateline :: head :: body)) with (head :: body).
    unfold spec_reference_date in Href. case_try Href.
    cbn [rbind]. rewrite Href. cbn [rbind].
    fold usecols conv. rewrite Hload. cbn [rbind].
    rewrite Hrenamed. cbn [names]. rewrite Hj'. done.
  - apply (index_of_lookup "datetime" _ j).
    + by apply list_lookup_insert_eq.
    + intros k Hk. rewrite list_lookup_insert_ne by lia.
      intros (n & Hn & Hlook)%list_lookup_fmap_Some.
      symmetry in Hn. apply Hfd in Hn as ->.
      apply datetime_not_a_variable.
      rewrite Forall_forall in Hvars. apply Hvars, Hsub.
      by eapply list_elem_of_lookup_2.
  - intros [[=]|(k & Hk & Hlook)]%elem_of_insert_other.
    apply list_lookup_fmap_Some in Hlook as (n & Hn & Hlook).
    symmetry in Hn. apply HfT in Hn as ->.
    apply index_of_Some in Hj as [Hj _].
    apply Hk. by eapply NoDup_lookup.
  - eapply Forall2_impl; [exact Hrows|].
    intros line row (_ & HP & Hlen & tok & n & H). eauto 10.
Qed.

Example sample_mts_lines : PyStr.lines sample_mts = sample_lines.
Proof. vm_compute. reflexivity. Qed.

(** The sample file read in full: the time column is renamed and holds
    the times of day. *)
Example read_sample :
  read_mesonet_data library_world (Handle (PyStr.lines sample_mts))
    (Some ["stid"; "time"; "tair"]) false true false = Ok sample_parsed.
Proof. vm_compute. reflexivity. Qed.

(** Without TIME among the fields asked for there is no column to rename
    and the call raises. *)
Example read_without_time_column :
  read_mesonet_data library_world (Handle (PyStr.lines sample_mts))
    (Some ["tair"]) false true false = Raise ValueError.
Proof. vm_compute. reflexivity. Qed.

(** The station lookup is the last step of the reader: with
    [lookup_stids] the call is the call without it, followed by the
    lookup. *)
Lemma read_then_lookup w filename fields rename_fields convert_time :
  read_mesonet_data w filename fields rename_fields convert_time true
  = (try t <- read_mesonet_data w filename fields rename_fields
                convert_time false in
     lookup_stations w t).
Proof.
  unfold read_mesonet_data.
  destruct (open_source w filename) as [fh|e]; cbn [rbind]; [|done].
  destruct convert_time.
  - destruct (rmap PyStr.int (take 3 (drop 1 (PyStr.split (default "" (fh !! 1%nat))))))
      as [ymd|e]; cbn [rbind]; [|done].
    destruct (Datetime.of_args ymd) as [dt|e]; cbn [rbind]; [|done].
    match goal with |- context [mloadtxt ?a ?b ?c ?d ?m] =>
      destruct (mloadtxt a b c d m) as [data|e]; cbn [rbind]; [|done] end.
    match goal with |- context [index_of "TIME" ?l] =>
      destruct (index_of "TIME" l) as [i|]; cbn [rbind]; done end.
  - cbn [rbind].
    match goal with |- context [mloadtxt ?a ?b ?c ?d ?m] =>
      destruct (mloadtxt a b c d m) as [data|e]; cbn [rbind]; done end.
Qed.

(** ** The order of station ids and the binary search *)

Lemma ltb_lt a b : String.ltb a b = true <-> OrderedTypeEx.String_as_OT.lt a b.
Proof.
  unfold String.ltb. rewrite <- OrderedTypeEx.String_as_OT.cmp_lt.
  unfold OrderedTypeEx.String_as_OT.cmp.
  destruct (String.compare a b); split; congruence.
Qed.

Lemma ltb_trans a b c :
  String.ltb a b = true -> String.ltb b c = true -> String.ltb a c = true.
Proof.
  rewrite !ltb_lt. apply OrderedTypeEx.String_as_OT.lt_trans.
Qed.

Lemma ltb_irrefl a : String.ltb a a = false.
Proof.
  destruct (String.ltb a a) eqn:E; [|done].
  apply ltb_lt, OrderedTypeEx.String_as_OT.lt_not_eq in E. by destruct E.
Qed.

Lemma bisect_left_step steps a key lo hi :
  bisect_left (S steps) a key lo hi
  = if (lo <? hi)%nat then
      match a !! (lo + (hi - lo) / 2)%nat with
      | Some x =>
          if String.ltb x key
          then bisect_left steps a key (S (lo + (hi - lo) / 2)) hi
          else bisect_left steps a key lo (lo + (hi - lo) / 2)
      | None => lo
      end
    else lo.
Proof. reflexivity. Qed.

(** On sorted ids the search returns the number of ids below the key:
    every id before the result is below the key, no id from the result on
    is. *)
Lemma bisect_left_sorted a key steps lo hi :
  sorted_ids a ->
  (lo <= hi)%nat -> (hi <= length a)%nat -> (hi - lo <= steps)%nat ->
  (forall k x, (k < lo)%nat -> a !! k = Some x -> String.ltb x key = true) ->
  (forall k x, (hi <= k)%nat -> a !! k = Some x -> String.ltb x key = false) ->
  let r := bisect_left steps a key lo hi in
  (lo <= r <= hi)%nat /\
  (forall k x, (k < r)%nat -> a !! k = Some x -> String.ltb x key = true) /\
  (forall k x, (r <= k)%nat -> a !! k = Some x -> String.ltb x key = false).
Proof.
  intros Hsorted. revert lo hi.
  induction steps as [|steps IH]; intros lo hi Hle Hhi Hsteps Hlow Hhigh;
    cbn zeta.
  - simpl. assert (lo = hi) as -> by lia. auto with lia.
  - rewrite bisect_left_step. destruct (lo <? hi)%nat eqn:Elt.
    + apply Nat.ltb_lt in Elt.
      assert (Hmid : (lo <= lo + (hi - lo) / 2 < hi)%nat).
      { split; [lia|].
        assert ((hi - lo) / 2 < hi - lo)%nat by (apply Nat.div_lt; lia). lia. }
      set (mid := (lo + (hi - lo) / 2)%nat) in *.
      destruct (lookup_lt_is_Some_2 a mid) as [x Hx]; [lia|].
      rewrite Hx. destruct (String.ltb x key) eqn:Ex.
      * destruct (IH (S mid) hi) as (Hr & Hbelow & Habove); try lia; try done.
        -- intros k y Hk Hy. destruct (decide (k = mid)) as [->|Hne].
           ++ congruence.
           ++ apply (ltb_trans y x key); [|done].
              apply (Hsorted k mid); [lia|done|done].
        -- split; [lia|]. done.
      * destruct (IH lo mid) as (Hr & Hbelow & Habove); try lia; try done.
        -- intros k y Hk Hy. destruct (decide (k = mid)) as [->|Hne].
           ++ congruence.
           ++ destruct (String.ltb y key) eqn:Ey; [|done].
              assert (String.ltb x y = true)
                by (apply (Hsorted mid k); [lia|done|done]).
              by rewrite (ltb_trans x y key) in Ex.
        -- split; [lia|]. done.
    + apply Nat.ltb_ge in Elt. assert (lo = hi) as -> by lia. auto with lia.
Qed.

(** The index that the lookup takes for a station id. *)
Lemma searchsorted_sorted a key :
  sorted_ids a ->
  let r := bisect_left (length a) a key 0 (length a) in
  (r <= length a)%nat /\
  (forall k x, (k < r)%nat -> a !! k = Some x -> String.ltb x key = true) /\
  (forall k x, (r <= k)%nat -> a !! k = Some x -> String.ltb x key = false).
Proof.
  intros Hsorted.
  assert (Hlow : forall k x, (k < 0)%nat -> a !! k = Some x ->
                             String.ltb x key = true) by (intros; lia).
  assert (Hhigh : forall k x, (length a <= k)%nat -> a !! k = Some x ->
                              String.ltb x key = false).
  { intros k x Hk Hx. apply lookup_lt_Some in Hx. lia. }
  destruct (bisect_left_sorted a key (length a) 0 (length a) Hsorted
              (Nat.le_0_l _) (Nat.le_refl _) ltac:(lia) Hlow Hhigh)
    as ([_ Hr] & Hbelow & Habove).
  done.
Qed.

Lemma searchsorted_present a key i :
  sorted_ids a -> a !! i = Some key ->
  bisect_left (length a) a key 0 (length a) = i.
Proof.
  intros Hsorted Hi.
  destruct (searchsorted_sorted a key Hsorted) as (Hr & Hbelow & Habove).
  set (r := bisect_left (length a) a key 0 (length a)) in *.
  destruct (Nat.lt_trichotomy i r) as [Hlt|[->|Hgt]]; [|done|].
  - specialize (Hbelow i key Hlt Hi). by rewrite ltb_irrefl in Hbelow.
  - assert (r < length a)%nat as Hlen
        by (apply lookup_lt_Some in Hi; lia).
    destruct (lookup_lt_is_Some_2 a r Hlen) as [y Hy].
    pose proof (Hsorted r i y key Hgt Hy Hi) as Hlt.
    by rewrite (Habove r y) in Hlt.
Qed.

(** ** The station lookup *)

Lemma take_indices_Forall2 {A} (a : list A) idx l :
  take_indices a idx = Ok l <-> Forall2 (fun i x => a !! i = Some x) idx l.
Proof.
  unfold take_indices. rewrite rmap_Forall2. split; intros H;
    (eapply Forall2_impl; [exact H|]); intros i x; cbn beta;
    destruct (a !! i); congruence.
Qed.

Lemma take_indices_fmap {A B} (f : A -> B) (a : list A) idx l :
  take_indices a idx = Ok l -> take_indices (f <$> a) idx = Ok (f <$> l).
Proof.
  rewrite !take_indices_Forall2. intros H. apply Forall2_fmap_r.
  eapply Forall2_impl; [exact H|]. intros i x Hx.
  by rewrite list_lookup_fmap, Hx.
Qed.

Lemma take_indices_out_of_range {A} (a : list A) idx :
  Exists (fun i => a !! i = None) idx -> take_indices a idx = Raise IndexError.
Proof.
  unfold take_indices. induction idx as [|i idx IH]; intros H.
  - by apply Exists_nil in H.
  - cbn [rmap]. destruct (a !! i) as [x|] eqn:Hi; cbn [rbind]; [|done].
    apply Exists_cons in H as [H|H]; [congruence|].
    by rewrite (IH H).
Qed.

(** The records after [rec_append_fields] when row [k] is given the cells
    of the station [sts !! k]. *)
Lemma rec_append_station_cells cols rs sts new_names :
  length sts = length rs ->
  rec_append_fields (mk_table cols rs) new_names
    [VNum <$> (Lat <$> sts); VNum <$> (Lon <$> sts); VNum <$> (Elev <$> sts)]
  = mk_table (cols ++ new_names)
      (zip_with (fun r st => r ++ station_cells st) rs sts).
Proof.
  intros Hlen. unfold rec_append_fields. cbn [names rows]. f_equal.
  revert sts Hlen. induction rs as [|r rs IH]; intros [|st sts] Hlen;
    try done.
  cbn [imap zip_with]. f_equal. rewrite <- (IH sts) by (simpl in Hlen; lia).
  by apply imap_ext.
Qed.

Lemma Forall2_diag {A} (R : A -> A -> Prop) (l : list A) :
  Forall (fun x => R x x) l -> Forall2 R l l.
Proof. induction 1; constructor; auto. Qed.

(** The lookup, row by row: the station of a row is the one at the index
    that the search returns for the station id of the row. *)
Lemma lookup_stations_indexed w t i sts :
  index_of "STID" (names t) = Some i ->
  well_formed t ->
  Forall2 (fun (row : list cell) st =>
             exists c id,
               row !! i = Some c /\ data c = VStr id /\
               station_table w
               !! bisect_left (length (stid <$> station_table w))
                    (stid <$> station_table w) id 0
                    (length (stid <$> station_table w))
               = Some st) (rows t) sts ->
  lookup_stations w t
  = Ok (mk_table (names t ++ ["latitude"; "longitude"; "elevation"])
          (zip_with (fun r st => r ++ station_cells st) (rows t) sts)).
Proof.
  intros Hi Hwf Hrows. unfold lookup_stations, mesonet_stid_info.
  rewrite (field_well_formed t "STID" i Hi Hwf). cbn [rbind].
  set (ids := (fun row : list cell =>
                 match data (cell_at i row) with
                 | VStr id => id
                 | _ => ""
                 end) <$> rows t).
  assert (Htext : Forall (fun row : list cell =>
                            exists c id, row !! i = Some c /\ data c = VStr id)
                         (rows t)).
  { eapply Forall2_Forall_l; [exact Hrows|]. apply Forall_forall.
    intros st _ row (c & id & Hc & Hid & _). eauto. }
  assert (Hids : rmap text_of (cell_at i <$> rows t) = Ok ids /\
                 take_indices (station_table w)
                   (searchsorted (stid <$> station_table w) ids) = Ok sts).
  { unfold ids, searchsorted. rewrite rmap_Forall2, take_indices_Forall2.
    split.
    - apply Forall2_fmap_l, Forall2_fmap_r, Forall2_diag.
      eapply Forall_impl; [exact Htext|].
      intros row (c & id & Hc & Hid). cbn.
      unfold text_of. by rewrite (lookup_cell_at i row c Hc), Hid.
    - apply Forall2_fmap_l, Forall2_fmap_l.
      eapply Forall2_impl; [exact Hrows|].
      intros row st (c & id & Hc & Hid & Hst). cbn.
      by rewrite (lookup_cell_at i row c Hc), Hid. }
  destruct Hids as [-> Htake]. cbn [rbind].
  rewrite (take_indices_fmap Lat _ _ _ Htake). cbn [rbind].
  rewrite (take_indices_fmap Lon _ _ _ Htake). cbn [rbind].
  rewrite (take_indices_fmap Elev _ _ _ Htake). cbn [rbind].
  f_equal. destruct t as [cols rs]. apply rec_append_station_cells.
  symmetry. by eapply Forall2_length.
Qed.

Lemma Forall2_zip_with_r {A B C} (P : A -> B -> Prop) (f : A -> B -> C) l k :
  Forall2 P l k ->
  Forall2 (fun x y => exists s, P x s /\ y = f x s) l (zip_with f l k).
Proof. induction 1; constructor; eauto. Qed.

Lemma sample_stations_sorted : sorted_ids (stid <$> sample_stations).
Proof.
  intros [|[|i]] [|[|[|j]]] x y Hij; simpl; intros [= <-] [= <-];
    try lia; reflexivity.
Qed.

(** X1: with the station ids in ascending order, a table whose station
    ids are all in the station table gets, row by row, the latitude,
    longitude and elevation stored for the station of that row, appended
    after the existing columns. *)
Theorem lookup_stations_exact w t i :
  sorted_ids (stid <$> station_table w) ->
  index_of "STID" (names t) = Some i ->
  well_formed t ->
  Forall (fun row : list cell =>
            exists c st, row !! i = Some c /\ st ∈ station_table w /\
                         data c = VStr (stid st)) (rows t) ->
  exists t',
    lookup_stations w t = Ok t' /\
    names t' = names t ++ ["latitude"; "longitude"; "elevation"] /\
    Forall2 (fun (row row' : list cell) =>
               exists c st, row !! i = Some c /\ st ∈ station_table w /\
                            data c = VStr (stid st) /\
                            row' = row ++ station_cells st)
            (rows t) (rows t').
Proof.
  intros Hsorted Hi Hwf Hrows.
  destruct (Forall_exists_Forall2
              (fun (row : list cell) st =>
                 exists c, row !! i = Some c /\ st ∈ station_table w /\
                           data c = VStr (stid st)) (rows t))
    as [sts Hsts].
  { eapply Forall_impl; [exact Hrows|]. intros row (c & st & H). eauto. }
  eexists. split; [|split].
  - apply (lookup_stations_indexed w t i sts Hi Hwf).
    eapply Forall2_impl; [exact Hsts|].
    intros row st (c & Hc & [k Hk]%list_elem_of_lookup & Hid).
    exists c, (stid st). split; [done|]. split; [done|].
    rewrite (searchsorted_present _ (stid st) k Hsorted); [done|].
    by rewrite list_lookup_fmap, Hk.
  - done.
  - cbn [rows]. eapply Forall2_impl; [apply Forall2_zip_with_r, Hsts|].
    intros row row' (st & (c & Hc & Hin & Hid) & ->). eauto 10.
Qed.

Lemma lookup_stations_exact_witness :
  exists t',
    lookup_stations library_world known_site_table = Ok t' /\
    names t' = names known_site_table ++ ["latitude"; "longitude"; "elevation"] /\
    Forall2 (fun (row row' : list cell) =>
               exists c st, row !! 0%nat = Some c /\
                            st ∈ station_table library_world /\
                            data c = VStr (stid st) /\
                            row' = row ++ station_cells st)
            (rows known_site_table) (rows t').
Proof.
  apply (lookup_stations_exact library_world known_site_table 0).
  - exact sample_stations_sorted.
  - reflexivity.
  - repeat constructor.
  - apply Forall_cons. split.
    { exists (mk_cell (VStr "NRMN") false),
             (mk_station "NRMN" (3524 # 100) (-9746 # 100) (357 # 1)).
      split; [reflexivity|]. split; [|reflexivity].
      apply list_elem_of_further, list_elem_of_here. }
    apply Forall_cons. split.
    { exists (mk_cell (VStr "ADAX") false),
             (mk_station "ADAX" (3480 # 100) (-9667 # 100) (295 # 1)).
      split; [reflexivity|]. split; [|reflexivity].
      apply list_elem_of_here. }
    apply Forall_nil_2.
Defined.

(** X2: a station id that no id of the station table reaches, and so any
    id when the station table is empty, is searched to the position past
    the end of the table; indexing the latitudes there is out of bounds
    and the whole lookup raises [IndexError]. *)
Theorem lookup_stations_beyond_last w t i :
  sorted_ids (stid <$> station_table w) ->
  index_of "STID" (names t) = Some i ->
  well_formed t ->
  Forall (fun row : list cell =>
            exists c id, row !! i = Some c /\ data c = VStr id) (rows t) ->
  Exists (fun row : list cell =>
            exists c id, row !! i = Some c /\ data c = VStr id /\
              forall st, st ∈ station_table w ->
                         String.ltb (stid st) id = true) (rows t) ->
  lookup_stations w t = Raise IndexError.
Proof.
  intros Hsorted Hi Hwf Htext Hlate.
  unfold lookup_stations, mesonet_stid_info.
  rewrite (field_well_formed t "STID" i Hi Hwf). cbn [rbind].
  set (ids := (fun row : list cell =>
                 match data (cell_at i row) with
                 | VStr id => id
                 | _ => ""
                 end) <$> rows t).
  assert (Hids : rmap text_of (cell_at i <$> rows t) = Ok ids).
  { unfold ids. apply rmap_Forall2, Forall2_fmap_l, Forall2_fmap_r, Forall2_diag.
    eapply Forall_impl; [exact Htext|].
    intros row (c & id & Hc & Hid). cbn.
    unfold text_of. by rewrite (lookup_cell_at i row c Hc), Hid. }
  rewrite Hids. cbn [rbind].
  rewrite take_indices_out_of_range; [done|].
  unfold searchsorted, ids. rewrite <- list_fmap_compose.
  apply Exists_fmap. eapply Exists_impl; [exact Hlate|].
  intros row (c & id & Hc & Hid & Hall). cbn.
  rewrite (lookup_cell_at i row c Hc), Hid.
  destruct (searchsorted_sorted (stid <$> station_table w) id Hsorted)
    as (Hr & _ & Habove).
  set (r := bisect_left _ _ _ _ _) in *.
  apply lookup_ge_None. rewrite length_fmap in *.
  destruct (decide (r < length (station_table w))%nat) as [Hlt|]; [|lia].
  destruct (lookup_lt_is_Some_2 (station_table w) r Hlt) as [st Hst].
  assert (String.ltb (stid st) id = false) as Hnot.
  { apply (Habove r); [lia|]. by rewrite list_lookup_fmap, Hst. }
  rewrite Hall in Hnot; [done|]. by eapply list_elem_of_lookup_2.
Qed.

Lemma lookup_stations_beyond_last_witness :
  lookup_stations library_world late_site_table = Raise IndexError.
Proof.
  apply (lookup_stations_beyond_last library_world late_site_table 0).
  - exact sample_stations_sorted.
  - reflexivity.
  - repeat constructor.
  - apply Forall_cons. split; [by eexists _, _|].
    apply Forall_cons. split; [by eexists _, _|]. apply Forall_nil_2.
  - apply Exists_cons_tl, Exists_cons_hd.
    exists (mk_cell (VStr "ZZZZ") false), "ZZZZ".
    split; [reflexivity|]. split; [reflexivity|].
    intros st Hst. change (st ∈ sample_stations) in Hst.
    unfold sample_stations in Hst. rewrite !elem_of_cons, elem_of_nil in Hst.
    destruct Hst as [->|[->|[]]]; reflexivity.
Defined.

(** X3: an unknown station id that sorts before some known one raises
    nothing.  Each row is given the coordinates of the first station of the
    table whose id is not below the id of the row, whether or not the two
    ids are the same. *)
Theorem lookup_stations_first_not_below w t i :
  sorted_ids (stid <$> station_table w) ->
  index_of "STID" (names t) = Some i ->
  well_formed t ->
  Forall (fun row : list cell =>
            exists c id k st,
              row !! i = Some c /\ data c = VStr id /\
              station_table w !! k = Some st /\
              String.ltb (stid st) id = false /\
              forall k' st', (k' < k)%nat -> station_table w !! k' = Some st' ->
                             String.ltb (stid st') id = true) (rows t) ->
  exists t',
    lookup_stations w t = Ok t' /\
    names t' = names t ++ ["latitude"; "longitude"; "elevation"] /\
    Forall2 (fun (row row' : list cell) =>
               exists c id k st,
                 row !! i = Some c /\ data c = VStr id /\
                 station_table w !! k = Some st /\
                 String.ltb (stid st) id = false /\
                 (forall k' st', (k' < k)%nat ->
                                 station_table w !! k' = Some st' ->
                                 String.ltb (stid st') id = true) /\
                 row' = row ++ station_cells st)
            (rows t) (rows t').
Proof.
  intros Hsorted Hi Hwf Hrows.
  destruct (Forall_exists_Forall2
              (fun (row : list cell) st =>
                 exists c id k,
                   row !! i = Some c /\ data c = VStr id /\
                   station_table w !! k = Some st /\
                   String.ltb (stid st) id = false /\
                   forall k' st', (k' < k)%nat ->
                                  station_table w !! k' = Some st' ->
                                  String.ltb (stid st') id = true) (rows t))
    as [sts Hsts].
  { eapply Forall_impl; [exact Hrows|]. intros row (c & id & k & st & H).
    eauto 10. }
  eexists. split; [|split].
  - apply (lookup_stations_indexed w t i sts Hi Hwf).
    eapply Forall2_impl; [exact Hsts|].
    intros row st (c & id & k & Hc & Hid & Hk & Hnot & Hbefore).
    exists c, id. split; [done|]. split; [done|].
    destruct (searchsorted_sorted (stid <$> station_table w) id Hsorted)
      as (Hr & Hbelow & Habove).
    set (r := bisect_left _ _ _ _ _) in *.
    assert (r = k) as ->; [|done].
    destruct (Nat.lt_trichotomy r k) as [Hlt|[->|Hgt]]; [|done|].
    + assert (r < length (station_table w))%nat as Hlen
          by (apply lookup_lt_Some in Hk; lia).
      destruct (lookup_lt_is_Some_2 (station_table w) r Hlen) as [st' Hst'].
      pose proof (Hbefore r st' Hlt Hst') as Hb.
      rewrite (Habove r (stid st')) in Hb; [done|lia|].
      by rewrite list_lookup_fmap, Hst'.
    + rewrite (Hbelow k (stid st)) in Hnot; [done|lia|].
      by rewrite list_lookup_fmap, Hk.
  - done.
  - cbn [rows]. eapply Forall2_impl; [apply Forall2_zip_with_r, Hsts|].
    intros row row' (st & (c & id & k & H) & ->).
    exists c, id, k, st. tauto.
Qed.

Lemma lookup_stations_first_not_below_witness :
  exists t',
    lookup_stations library_world unknown_site_table = Ok t' /\
    names t' = names unknown_site_table
               ++ ["latitude"; "longitude"; "elevation"] /\
    Forall2 (fun (row row' : list cell) =>
               exists c id k st,
                 row !! 0%nat = Some c /\ data c = VStr id /\
                 station_table library_world !! k = Some st /\
                 String.ltb (stid st) id = false /\
                 (forall k' st', (k' < k)%nat ->
                                 station_table library_world !! k' = Some st' ->
                                 String.ltb (stid st') id = true) /\
                 row' = row ++ station_cells st)
            (rows unknown_site_table) (rows t').
Proof.
  apply (lookup_stations_first_not_below library_world unknown_site_table 0).
  - exact sample_stations_sorted.
  - reflexivity.
  - repeat constructor.
  - apply Forall_cons. split; [|apply Forall_nil_2].
    exists (mk_cell (VStr "BURN") false), "BURN", 1%nat,
           (mk_station "NRMN" (3524 # 100) (-9746 # 100) (357 # 1)).
    split; [reflexivity|]. split; [reflexivity|]. split; [reflexivity|].
    split; [reflexivity|].
    intros [|k'] st' Hk' Hst'; [|lia]. by injection Hst' as <-.
Defined.

(** The station BURN is not in the sample table; its row gets the
    coordinates of NRMN. *)
Example lookup_unknown_station :
  lookup_stations library_world unknown_site_table
  = Ok (mk_table ["STID"; "latitude"; "longitude"; "elevation"]
          [[mk_cell (VStr "BURN") false; mk_cell (VNum (3524 # 100)) false;
            mk_cell (VNum (-9746 # 100)) false; mk_cell (VNum (357 # 1)) false]]).
Proof. reflexivity. Qed.

(** ** The time column of a call *)

Lemma Forall2_zip_with_l {A B C} (R : C -> A -> Prop) (f : A -> B -> C) l k :
  length l = length k ->
  (forall x y, x ∈ l -> R (f x y) x) ->
  Forall2 R (zip_with f l k) l.
Proof.
  revert k. induction l as [|x l IH]; intros [|y k] Hlen HR; try done.
  cbn [zip_with]. constructor.
  - apply HR. apply list_elem_of_here.
  - apply IH; [by injection Hlen|].
    intros x' y' Hx'. apply HR. by apply list_elem_of_further.
Qed.

(** The cell of the time column in the record of a line. *)
Lemma time_cell_at usecols header toks i tok j d :
  NoDup header -> header !! i = Some "TIME" -> toks !! i = Some tok ->
  length toks = length header ->
  index_of "TIME" (List.filter (selected usecols) header) = Some j ->
  cell_at j (cell_with_time d <$> selected_tokens usecols header toks)
  = mk_cell (VTime d) (is_missing missing tok).
Proof.
  intros Hnd Hi Htok Hlen Hj. unfold cell_at.
  rewrite list_lookup_fmap.
  by rewrite (selected_token_at usecols header toks i "TIME" tok j).
Qed.

Lemma record_length usecols header toks d :
  length toks = length header ->
  length (cell_with_time d <$> selected_tokens usecols header toks)
  = length (List.filter (selected usecols) header).
Proof.
  intros Hlen. rewrite length_fmap.
  rewrite <- (selected_tokens_names usecols header toks Hlen).
  by rewrite length_fmap.
Qed.

(** C5: a stream of a title line, a date line, a header of distinct
    mesonet variables with TIME among the columns read, and data lines
    whose TIME token is an integer [n] of minutes since midnight.  With
    [convert_time] the two leading lines are consumed, the reference date
    comes from tokens 1 to 3 of the date line, and the table has one row
    per data line, no column TIME, and a column [datetime] that holds for
    each line the time of day [n / 60 : n mod 60] of the reference date,
    masked as the token is.  This is so without the station lookup, and
    with it, as in the default call, on a stream whose stations the
    lookup finds. *)
Theorem read_converts_time w title dateline head body fields rename_fields
  lookup_stids ref i :
  spec_reference_date dateline = Ok ref ->
  valid_header (PyStr.split head) ->
  index_of "TIME" (PyStr.split head) = Some i ->
  selected (upper_fields fields) "TIME" = true ->
  Forall (fun line =>
            length (PyStr.split line) = length (PyStr.split head) /\
            exists tok n,
              PyStr.split line !! i = Some tok /\ PyStr.int tok = Ok n /\
              0 <= n < 1440) body ->
  (lookup_stids = true -> lookup_applies w fields rename_fields head body) ->
  exists t times,
    read_mesonet_data w (Handle (title :: dateline :: head :: body)) fields
      rename_fields true lookup_stids = Ok t /\
    size t = length body /\
    ("TIME" ∉ names t) /\
    field t "datetime" = Ok times /\
    Forall2 (fun line c =>
               exists tok n,
                 PyStr.split line !! i = Some tok /\ PyStr.int tok = Ok n /\
                 0 <= n < 1440 /\
                 c = mk_cell (VTime (spec_time_of_day ref n))
                       (is_missing missing tok)) body times.
Proof.
  intros Href Hhead Hi Hsel Hbody Hlk.
  pose proof Hhead as [Hnd Hvars].
  pose proof (index_of_Some _ _ _ Hi) as [Hheader _].
  destruct lookup_stids.
  - (* with the station lookup *)
    destruct (Hlk eq_refl) as (-> & Hsorted & Hsel_stid & k & Hk & Hst).
    pose proof (index_of_Some _ _ _ Hk) as [Hheader_k _].
    destruct (read_time_table
                (fun line =>
                   exists st, st ∈ station_table w /\
                              PyStr.split line !! k = Some (stid st) /\
                              PyStr.decimal (stid st) = None)
                w title dateline head body fields false ref i
                Href Hhead Hi Hsel)
      as (j & rows0 & Hj & Hread & Hdt & Hnotime & Hrows).
    { apply Forall_and. by split. }
    rewrite list_fmap_id in Hread, Hdt, Hnotime.
    set (usecols := upper_fields fields) in *.
    set (header := PyStr.split head) in *.
    set (cols := List.filter (selected usecols) header) in *.
    set (names0 := <[j := "datetime"]> cols) in *.
    destruct (index_of_elem "STID" cols) as [s Hs].
    { apply list_elem_of_In, filter_In. split; [|done].
      apply list_elem_of_In. by eapply list_elem_of_lookup_2. }
    assert (Hsj : s <> j).
    { intros ->. apply index_of_Some in Hs as [Hs _].
      apply index_of_Some in Hj as [Hj _]. congruence. }
    assert (Hs' : index_of "STID" names0 = Some s)
      by by apply index_of_insert_ne.
    assert (Hwf : well_formed (mk_table names0 rows0)).
    { unfold well_formed. cbn [names rows].
      eapply Forall2_Forall_r; [exact Hrows|]. apply Forall_forall.
      intros line _ row (_ & Hlen & tok & n & _ & _ & _ & ->).
      unfold names0. rewrite length_insert. by apply record_length. }
    destruct (Forall_exists_Forall2
                (fun (row : list cell) st =>
                   exists c id,
                     row !! s = Some c /\ data c = VStr id /\
                     station_table w
                     !! bisect_left (length (stid <$> station_table w))
                          (stid <$> station_table w) id 0
                          (length (stid <$> station_table w))
                     = Some st) rows0) as [sts Hsts].
    { eapply Forall2_Forall_r; [exact Hrows|]. apply Forall_forall.
      intros line _ row
        ((st & Hin & Htok & Hdec) & Hlen & tok & n & _ & _ & _ & ->).
      exists st, (cell_with_time (spec_time_of_day ref n) ("STID", stid st)),
             (stid st).
      split; [|split].
      - rewrite list_lookup_fmap.
        by rewrite (selected_token_at usecols header (PyStr.split line) k
                      "STID" (stid st) s).
      - unfold cell_with_time, auto_value. cbn. by rewrite Hdec.
      - apply list_elem_of_lookup in Hin as [idx Hidx].
        rewrite (searchsorted_present _ (stid st) idx Hsorted); [done|].
        by rewrite list_lookup_fmap, Hidx. }
    pose proof (lookup_stations_indexed w (mk_table names0 rows0) s sts
                  Hs' Hwf Hsts) as Hlookup.
    cbn [names rows] in Hlookup.
    assert (Hlen_sts : length rows0 = length sts) by by eapply Forall2_length.
    exists (mk_table (names0 ++ ["latitude"; "longitude"; "elevation"])
              (zip_with (fun r st => r ++ station_cells st) rows0 sts)),
           (cell_at j <$> rows0).
    split; [|split; [|split; [|split]]].
    + rewrite read_then_lookup, Hread. exact Hlookup.
    + unfold size. cbn [rows]. rewrite length_zip_with, <- Hlen_sts.
      rewrite Nat.min_id. symmetry. by eapply Forall2_length.
    + cbn [names]. rewrite elem_of_app. intros [H|H]; [done|].
      rewrite !elem_of_cons, elem_of_nil in H.
      destruct H as [[=]|[[=]|[[=]|[]]]].
    + unfold field. cbn [names rows]. rewrite (index_of_app_l _ _ _ _ Hdt).
      apply rmap_Forall2, Forall2_fmap_r, Forall2_zip_with_l; [done|].
      intros row st Hrow. cbn beta.
      unfold well_formed in Hwf. cbn [names rows] in Hwf.
      rewrite Forall_forall in Hwf. specialize (Hwf row Hrow).
      assert (Hjlt : (j < length row)%nat).
      { rewrite Hwf. by eapply index_of_lt. }
      by rewrite lookup_app_l, (cell_at_lookup j row Hjlt).
    + apply Forall2_fmap_r. eapply Forall2_impl; [exact Hrows|].
      intros line row (_ & Hlen & tok & n & Htok & Hint & Hn & ->).
      exists tok, n. repeat (split; [done|]).
      by apply (time_cell_at usecols header (PyStr.split line) i).
  - (* without it *)
    destruct (read_time_table (fun _ => True) w title dateline head body
                fields rename_fields ref i Href Hhead Hi Hsel)
      as (j & rows0 & Hj & Hread & Hdt & Hnotime & Hrows).
    { apply Forall_and. split; [done|]. by apply Forall_true. }
    set (usecols := upper_fields fields) in *.
    set (header := PyStr.split head) in *.
    set (cols := List.filter (selected usecols) header) in *.
    eexists _, (cell_at j <$> rows0).
    split; [exact Hread|]. split; [|split; [|split]].
    + unfold size. cbn [rows]. symmetry. by eapply Forall2_length.
    + done.
    + apply field_well_formed; [done|].
      unfold well_formed. cbn [names rows].
      eapply Forall2_Forall_r; [exact Hrows|]. apply Forall_forall.
      intros line _ row (_ & Hlen & tok & n & _ & _ & _ & ->).
      rewrite length_insert, (record_length _ _ _ _ Hlen).
      by rewrite length_fmap.
    + apply Forall2_fmap_r. eapply Forall2_impl; [exact Hrows|].
      intros line row (_ & Hlen & tok & n & Htok & Hint & Hn & ->).
      exists tok, n. repeat (split; [done|]).
      by apply (time_cell_at usecols header (PyStr.split line) i).
Qed.

Lemma read_converts_time_witness :
  (exists t times,
     read_mesonet_data library_world
       (Handle (sample_title :: sample_date_line :: sample_header
                :: sample_rows))
       None false true true = Ok t /\
     size t = length sample_rows /\
     ("TIME" ∉ names t) /\
     field t "datetime" = Ok times /\
     Forall2 (fun line c =>
                exists tok n,
                  PyStr.split line !! 2%nat = Some tok /\
                  PyStr.int tok = Ok n /\
                  0 <= n < 1440 /\
                  c = mk_cell (VTime (spec_time_of_day (at_minute 0 0) n))
                        (is_missing missing tok))
             sample_rows times) /\
  (rbind (read_mesonet_data library_world
            (Handle (sample_title :: sample_date_line :: sample_header
                     :: sample_rows))
            None false true true)
         (fun t => field t "datetime")
   = Ok [mk_cell (VTime (Datetime.mk 2008 11 20 0 0 0 0)) false;
         mk_cell (VTime (Datetime.mk 2008 11 20 0 5 0 0)) false;
         mk_cell (VTime (Datetime.mk 2008 11 20 0 10 0 0)) false]).
Proof.
  split; [|vm_compute; reflexivity].
  apply (read_converts_time library_world sample_title sample_date_line
           sample_header sample_rows None false true (at_minute 0 0) 2).
  - vm_compute. reflexivity.
  - split; compute_done.
  - vm_compute. reflexivity.
  - vm_compute. reflexivity.
  - apply Forall_cons. split.
    { split; [vm_compute; reflexivity|].
      exists "0", 0. repeat split; vm_compute; congruence. }
    apply Forall_cons. split.
    { split; [vm_compute; reflexivity|].
      exists "5", 5. repeat split; vm_compute; congruence. }
    apply Forall_cons. split.
    { split; [vm_compute; reflexivity|].
      exists "10", 10. repeat split; vm_compute; congruence. }
    apply Forall_nil_2.
  - intros _. split; [reflexivity|]. split; [exact sample_stations_sorted|].
    split; [reflexivity|]. exists 0%nat. split; [reflexivity|].
    apply Forall_cons. split.
    { exists (mk_station "NRMN" (3524 # 100) (-9746 # 100) (357 # 1)).
      split; [apply list_elem_of_further, list_elem_of_here|].
      split; vm_compute; reflexivity. }
    apply Forall_cons. split.
    { exists (mk_station "NRMN" (3524 # 100) (-9746 # 100) (357 # 1)).
      split; [apply list_elem_of_further, list_elem_of_here|].
      split; vm_compute; reflexivity. }
    apply Forall_cons. split.
    { exists (mk_station "NRMN" (3524 # 100) (-9746 # 100) (357 # 1)).
      split; [apply list_elem_of_further, list_elem_of_here|].
      split; vm_compute; reflexivity. }
    apply Forall_nil_2.
Defined.

(** ** Renaming *)

(** X4: renaming is idempotent: a renamed name is left alone by a second
    renaming, so a table can be passed through the renaming again without
    change. *)
Theorem rename_idempotent n : rename (rename n) = rename n.
Proof.
  destruct (rename_cases n) as [H|[raw Hraw]]; [by rewrite H|].
  generalize dependent (rename n). intros c Hraw.
  apply elem_of_map_to_list in Hraw.
  vm_compute map_to_list in Hraw.
  rewrite !elem_of_cons, elem_of_nil in Hraw.
  repeat destruct Hraw as [[= -> _]|Hraw];
    first [destruct Hraw | vm_compute; reflexivity].
Qed.

(** X5: the raw side of the renaming is matched without regard to letter
    case: a column whose name is a mapped raw code in any mix of cases is
    given the canonical name of that code. *)
Theorem rename_case_insensitive canonical raw n :
  mesonet_var_map !! canonical = Some raw ->
  PyStr.upper n = raw ->
  rename n = canonical.
Proof.
  intros Hmap Hupper. unfold rename.
  by rewrite Hupper, (var_map_round_trip canonical raw Hmap).
Qed.

Lemma rename_case_insensitive_witness : rename "tAir" = "temperature".
Proof.
  apply (rename_case_insensitive "temperature" "TAIR" "tAir");
    vm_compute; reflexivity.
Defined.

(** X6: [rename_fields] changes the names and nothing else, and it does
    not matter that it runs before the time column is renamed: the call
    with [rename_fields] is the call without it, with every name passed
    through the renaming and the records untouched. *)
Theorem read_rename_names_only w filename fields convert_time :
  read_mesonet_data w filename fields true convert_time false
  = (try t <- read_mesonet_data w filename fields false convert_time false in
     Ok (set_names t (rename <$> names t))).
Proof.
  unfold read_mesonet_data.
  destruct (open_source w filename) as [fh|e]; cbn [rbind]; [|done].
  destruct convert_time.
  - destruct (rmap PyStr.int (take 3 (drop 1 (PyStr.split (default "" (fh !! 1%nat))))))
      as [ymd|e]; cbn [rbind]; [|done].
    destruct (Datetime.of_args ymd) as [dt|e]; cbn [rbind]; [|done].
    match goal with |- context [mloadtxt ?a ?b ?c ?d ?m] =>
      destruct (mloadtxt a b c d m) as [data|e]; cbn [rbind]; [|done] end.
    cbn [names set_names].
    rewrite (index_of_fmap rename "TIME" (names data) rename_TIME).
    destruct (index_of "TIME" (names data)) as [i|]; cbn [rbind]; [|done].
    unfold set_names. cbn [names rows]. by rewrite list_fmap_insert.
  - cbn [rbind].
    match goal with |- context [mloadtxt ?a ?b ?c ?d ?m] =>
      destruct (mloadtxt a b c d m) as [data|e]; cbn [rbind]; done end.
Qed.

(** ** What a returned table looks like *)

Lemma Forall2_imap_lookup {A B} (f : nat -> A -> B) (l : list A) :
  Forall2 (fun x y => exists k, l !! k = Some x /\ y = f k x) l (imap f l).
Proof.
  revert f. induction l as [|a l IH]; intros f; simpl; constructor.
  - by exists 0%nat.
  - eapply Forall2_impl; [apply IH|]. intros x y (k & Hk & ->).
    by exists (S k).
Qed.

Lemma lookup_stations_inv w d t :
  lookup_stations w d = Ok t ->
  names t = names d ++ ["latitude"; "longitude"; "elevation"] /\
  Forall2 (fun r r' : list cell =>
             exists extra, r' = r ++ extra /\ length extra = 3%nat)
          (rows d) (rows t).
Proof.
  unfold lookup_stations. intros H.
  case_try H. rename E into Hfield, a into ids.
  case_try H. rename E into Htext, a into keys.
  case_try H. rename E into Hlat, a into lat.
  case_try H. rename E into Hlon, a into lon.
  case_try H. rename E into Helev, a into elev.
  injection H as <-. split; [done|]. cbn [rows rec_append_fields].
  assert (Hn : length keys = length (rows d)).
  { apply rmap_length in Htext. rewrite Htext. unfold field in Hfield.
    destruct (index_of "STID" (names d)); [|done].
    by apply rmap_length in Hfield. }
  apply rmap_length in Hlat, Hlon, Helev.
  unfold searchsorted in *. rewrite length_map in *.
  eapply Forall2_impl; [apply Forall2_imap_lookup|].
  intros r r' (k & Hk & ->). eexists. split; [done|].
  apply lookup_lt_Some in Hk.
  destruct (lookup_lt_is_Some_2 (VNum <$> lat) k) as [x1 H1];
    [rewrite length_fmap; lia|].
  destruct (lookup_lt_is_Some_2 (VNum <$> lon) k) as [x2 H2];
    [rewrite length_fmap; lia|].
  destruct (lookup_lt_is_Some_2 (VNum <$> elev) k) as [x3 H3];
    [rewrite length_fmap; lia|].
  cbn [omap list_omap]. by rewrite H1, H2, H3.
Qed.

(** The steps of a call that returns: the file opens, the table of text
    parses, the time column is found when it is to be converted, and the
    station lookup, when asked for, succeeds on the renamed table. *)
Lemma read_mesonet_data_inv w filename fields rename_fields convert_time
  lookup_stids t :
  read_mesonet_data w filename fields rename_fields convert_time
    lookup_stids = Ok t ->
  exists fh conv data final_names,
    open_source w filename = Ok fh /\
    mloadtxt (drop 2 fh) (upper_fields fields) 0 conv missing = Ok data /\
    (if convert_time
     then exists i,
         index_of "TIME" ((if rename_fields then rename else id) <$> names data)
         = Some i /\
         final_names
         = <[i := "datetime"]>
             ((if rename_fields then rename else id) <$> names data)
     else final_names
          = (if rename_fields then rename else id) <$> names data) /\
    (if lookup_stids
     then lookup_stations w (mk_table final_names (rows data))
     else Ok (mk_table final_names (rows data))) = Ok t.
Proof.
  unfold read_mesonet_data. intros H.
  case_try H. rename a into fh. exists fh.
  assert (Hren : forall data : table,
             (if rename_fields then set_names data (rename <$> names data)
              else data)
             = mk_table ((if rename_fields then rename else id) <$> names data)
                        (rows data)).
  { intros [ns rs]. destruct rename_fields; [done|].
    cbn [names rows]. by rewrite list_fmap_id. }
  destruct convert_time.
  - case_try H. destruct a as [[fh' skip] conv].
    do 2 case_try E0. injection E0 as <- <- <-.
    case_try H. rename E0 into Hload, a1 into data.
    rewrite Hren in H. cbn [names] in H.
    destruct (index_of "TIME" _) as [i|] eqn:Hi; cbn [rbind] in H; [|done].
    unfold set_names in H. cbn [names rows] in H.
    eexists _, data, _. split; [done|]. split; [exact Hload|].
    split; [by exists i|]. exact H.
  - cbn [rbind] in H. case_try H. rename E0 into Hload, a into data.
    cbn [rbind] in H. rewrite Hren in H.
    eexists ∅, data, _. split; [done|]. split.
    + unfold mloadtxt in Hload |- *. by rewrite drop_0.
    + split; [reflexivity|]. exact H.
Qed.

(** The table of text that [mloadtxt] returns has one cell per column
    read in every record. *)
Lemma mloadtxt_well_formed fh usecols skip conv miss t :
  mloadtxt fh usecols skip conv miss = Ok t ->
  well_formed t /\ size t = length (drop (S skip) fh) /\
  exists head, fh !! skip = Some head /\
               names t = List.filter (selected usecols) (PyStr.split head).
Proof.
  intros (head & body & Hdrop & Hnames & Hrows)%mloadtxt_inv.
  apply drop_cons_inv in Hdrop as [Hhead <-].
  split; [|split].
  - unfold well_formed. rewrite Hnames.
    eapply Forall2_Forall_r; [exact Hrows|]. apply Forall_forall.
    intros line _ row [Hlen Hrow]. unfold parse_row in Hrow.
    apply rmap_length in Hrow. rewrite Hrow.
    rewrite <- (selected_tokens_names usecols _ _ Hlen). by rewrite length_fmap.
  - unfold size. symmetry. by eapply Forall2_length.
  - eauto.
Qed.

Lemma elem_of_filter_selected usecols header x :
  x ∈ List.filter (selected usecols) header -> selected usecols x = true.
Proof. intros H%list_elem_of_In. by apply filter_In in H as [_ H]. Qed.

Lemma read_mesonet_data_shape w filename fields rename_fields
  convert_time lookup_stids t :
  read_mesonet_data w filename fields rename_fields convert_time
    lookup_stids = Ok t ->
  exists fh,
    open_source w filename = Ok fh /\
    well_formed t /\ size t = length (drop 3 fh).
Proof.
  intros (fh & conv & data & final_names & Hopen & Hload & Hnames & Hlast)
    %read_mesonet_data_inv.
  exists fh. split; [done|].
  apply mloadtxt_well_formed in Hload as (Hwf & Hsize & _).
  rewrite drop_drop in Hsize. change (2 + 1)%nat with 3%nat in Hsize.
  assert (Hlen : length final_names = length (names data)).
  { destruct convert_time.
    - destruct Hnames as (i & _ & ->). by rewrite length_insert, length_fmap.
    - rewrite Hnames. by rewrite length_fmap. }
  destruct lookup_stids.
  - apply lookup_stations_inv in Hlast as [Hn Hrows]. cbn [names rows] in *.
    split.
    + unfold well_formed. rewrite Hn, length_app. cbn [length].
      eapply Forall2_Forall_r; [exact Hrows|].
      eapply Forall_impl; [exact Hwf|].
      intros r Hr r' (extra & -> & Hextra).
      rewrite length_app. cbn beta in Hr. lia.
    + unfold size in *. rewrite <- Hsize. symmetry. by eapply Forall2_length.
  - injection Hlast as <-. split; [|done].
    unfold well_formed in *. cbn [names rows]. by rewrite Hlen.
Qed.

(** X7: every table that the reader returns has one cell per field in
    every record, and one record per line after the two leading lines and
    the row of column names. *)
Theorem read_mesonet_data_well_formed w filename fields rename_fields
  convert_time lookup_stids t :
  read_mesonet_data w filename fields rename_fields convert_time
    lookup_stids = Ok t ->
  exists fh,
    open_source w filename = Ok fh /\
    well_formed t /\ size t = length (drop 3 fh).
Proof. apply read_mesonet_data_shape. Qed.

Lemma read_mesonet_data_well_formed_witness :
  exists fh,
    open_source library_world (Handle sample_lines) = Ok fh /\
    well_formed sample_parsed /\ size sample_parsed = length (drop 3 fh).
Proof.
  apply (read_mesonet_data_well_formed library_world (Handle sample_lines)
           (Some ["stid"; "time"; "tair"]) false true false sample_parsed).
  vm_compute. reflexivity.
Defined.

(** X8: whenever a call with [convert_time] returns, the table has a
    column named [datetime]. *)
Theorem read_convert_time_has_datetime w filename fields rename_fields
  lookup_stids t :
  read_mesonet_data w filename fields rename_fields true lookup_stids = Ok t ->
  "datetime" ∈ names t.
Proof.
  intros (fh & conv & data & final_names & _ & _ & (i & Hi & ->) & Hlast)
    %read_mesonet_data_inv.
  assert (Hin : "datetime" ∈ <[i := "datetime"]>
                  ((if rename_fields then rename else id) <$> names data)).
  { eapply list_elem_of_lookup_2. apply list_lookup_insert_eq.
    by eapply index_of_lt. }
  destruct lookup_stids.
  - apply lookup_stations_inv in Hlast as [-> _]. cbn [names].
    apply elem_of_app. by left.
  - by injection Hlast as <-.
Qed.

Lemma read_convert_time_has_datetime_witness : "datetime" ∈ names sample_parsed.
Proof.
  apply (read_convert_time_has_datetime library_world (Handle sample_lines)
           (Some ["stid"; "time"; "tair"]) false false sample_parsed).
  vm_compute. reflexivity.
Defined.

(** X9: with [convert_time] and a list of fields that leaves TIME out, the
    call never returns: there is no column TIME to rename and
    [names.index('TIME')] raises. *)
Theorem read_convert_time_needs_TIME w filename fields rename_fields
  lookup_stids :
  selected (upper_fields fields) "TIME" = false ->
  exists e,
    read_mesonet_data w filename fields rename_fields true lookup_stids
    = Raise e.
Proof.
  intros Hsel.
  destruct (read_mesonet_data w filename fields rename_fields true
              lookup_stids) as [t|e] eqn:E; [exfalso|by exists e].
  apply read_mesonet_data_inv
    in E as (fh & conv & data & final_names & _ & Hload & (i & Hi & _) & _).
  apply mloadtxt_well_formed in Hload as (_ & _ & head & _ & Hnames).
  apply index_of_Some in Hi as [Hi _].
  apply list_lookup_fmap_Some in Hi as (n & Hn & Hi).
  assert (n = "TIME") as ->.
  { destruct rename_fields; [by apply rename_TIME|done]. }
  apply list_elem_of_lookup_2 in Hi. rewrite Hnames in Hi.
  apply elem_of_filter_selected in Hi. congruence.
Qed.

Lemma read_convert_time_needs_TIME_witness :
  exists e,
    read_mesonet_data library_world (Handle sample_lines) (Some ["tair"])
      false true false = Raise e.
Proof.
  apply (read_convert_time_needs_TIME library_world (Handle sample_lines)
           (Some ["tair"]) false false).
  vm_compute. reflexivity.
Defined.

(** X10: with [lookup_stids] and a list of fields that leaves STID out,
    the call never returns: the lookup reads the column STID, and the table
    has none. *)
Theorem read_lookup_needs_STID w filename fields rename_fields convert_time :
  selected (upper_fields fields) "STID" = false ->
  exists e,
    read_mesonet_data w filename fields rename_fields convert_time true
    = Raise e.
Proof.
  intros Hsel.
  destruct (read_mesonet_data w filename fields rename_fields convert_time
              true) as [t|e] eqn:E; [exfalso|by exists e].
  apply read_mesonet_data_inv
    in E as (fh & conv & data & final_names & _ & Hload & Hnames & Hlast).
  apply mloadtxt_well_formed in Hload as (_ & _ & head & _ & Hdata).
  rewrite lookup_stations_no_STID in Hlast; [done|]. cbn [names].
  assert (Hno : "STID" ∉ (if rename_fields then rename else id) <$> names data).
  { intros (n & Hn & Hin)%list_elem_of_fmap. destruct rename_fields.
    - by apply (rename_not_STID n).
    - cbn in Hn. subst n. rewrite Hdata in Hin.
      apply elem_of_filter_selected in Hin. congruence. }
  destruct convert_time.
  - destruct Hnames as (i & _ & ->).
    by intros [[=]|H]%elem_of_insert_inv.
  - by rewrite Hnames.
Qed.

Lemma read_lookup_needs_STID_witness :
  exists e,
    read_mesonet_data library_world (Handle sample_lines)
      (Some ["time"; "tair"]) false true true = Raise e.
Proof.
  apply (read_lookup_needs_STID library_world (Handle sample_lines)
           (Some ["time"; "tair"]) false true).
  vm_compute. reflexivity.
Defined.

(** ** A date line that gives no date *)






Example read_bad_date_line_samples :
  read_mesonet_data library_world
    (Handle [sample_title; "  3 2008 Nov 20"; sample_header]) None false true
    false = Raise ValueError /\
  read_mesonet_data library_world
    (Handle [sample_title; "  3 2008 02 30"; sample_header]) None false true
    false = Raise ValueError /\
  read_mesonet_data library_world (Handle [sample_title]) None false true
    true = Raise TypeError.
Proof. repeat split; vm_compute; reflexivity. Qed.

(** ** More on the last observation *)

(** X12: rows marked as future observations after the end of a table do
    not change what [get_last_time] returns: the part of the day that the
    file holds in advance is passed over, however long it is. *)
Theorem get_last_time_ignores_trailing_future t post ref_field dt_field i j :
  index_of ref_field (names t) = Some i ->
  index_of dt_field (names t) = Some j ->
  well_formed t ->
  Forall (fun r : list cell => length r = length (names t)) post ->
  Forall (fun r : list cell => exists c, r !! i = Some c /\ future c) post ->
  get_last_time (mk_table (names t) (rows t ++ post)) ref_field dt_field
  = get_last_time t ref_field dt_field.
Proof.
  intros Hi Hj Hwf Hlen Hpost.
  rewrite (get_last_time_kept t ref_field dt_field i j Hi Hj Hwf).
  rewrite (get_last_time_kept (mk_table (names t) (rows t ++ post))
             ref_field dt_field i j Hi Hj).
  - cbn [rows]. rewrite kept_app, (kept_future i j post), app_nil_r; [done|].
    eapply Forall_impl; [exact Hpost|]. intros r (c & Hc & Hf).
    by rewrite (lookup_cell_at i r c Hc).
  - unfold well_formed in *. cbn [names rows]. by apply Forall_app.
Qed.

Lemma get_last_time_ignores_trailing_future_witness :
  get_last_time sample_table_extended "TAIR" "datetime"
  = get_last_time sample_table "TAIR" "datetime".
Proof.
  apply (get_last_time_ignores_trailing_future sample_table _
           "TAIR" "datetime" 1 0).
  - reflexivity.
  - reflexivity.
  - repeat constructor.
  - repeat constructor.
  - apply Forall_cons. split.
    { eexists. split; [reflexivity|]. eexists. split; reflexivity. }
    apply Forall_cons. split.
    { eexists. split; [reflexivity|]. eexists. split; reflexivity. }
    apply Forall_nil_2.
Defined.

Lemma mapped_code_cases canonical raw :
  mesonet_var_map !! canonical = Some raw ->
  raw ∈ ["TAIR"; "RELH"; "WSPD"; "WDIR"; "RAIN"; "PRES"; "STID"; "SRAD"; "WMAX"].
Proof.
  intros H%elem_of_map_to_list. vm_compute map_to_list in H.
  rewrite !elem_of_cons, elem_of_nil in H. rewrite !elem_of_cons, elem_of_nil.
  repeat destruct H as [[= -> ->]|H]; tauto.
Qed.

(** No name comes out of the renaming as a mapped raw code. *)
Lemma rename_not_mapped_code n canonical raw :
  mesonet_var_map !! canonical = Some raw -> rename n <> raw.
Proof.
  intros Hraw%mapped_code_cases Hn.
  destruct (rename_cases n) as [Hsame|[raw' Hkey]].
  - rewrite Hsame in Hn. subst n.
    rewrite !elem_of_cons, elem_of_nil in Hraw.
    repeat destruct Hraw as [->|Hraw];
      first [destruct Hraw | vm_compute in Hsame; discriminate].
  - rewrite Hn in Hkey. rewrite !elem_of_cons, elem_of_nil in Hraw.
    repeat destruct Hraw as [->|Hraw];
      first [destruct Hraw | vm_compute in Hkey; discriminate].
Qed.

(** X13: after a read with [rename_fields] no column bears a mapped raw
    code any more, so [get_last_time] asked for such a code, as with its
    default reference field TAIR, raises [ValueError] on the table. *)
Theorem read_renamed_has_no_raw_code w filename fields convert_time t
  canonical raw dt_field :
  mesonet_var_map !! canonical = Some raw ->
  read_mesonet_data w filename fields true convert_time false = Ok t ->
  (raw ∉ names t) /\ get_last_time t raw dt_field = Raise ValueError.
Proof.
  intros Hraw Hread.
  assert (Hno : raw ∉ names t).
  { apply read_mesonet_data_inv
      in Hread as (fh & conv & data & final_names & _ & _ & Hnames & Hlast).
    injection Hlast as <-. cbn [names].
    assert (Hren : raw ∉ rename <$> names data).
    { intros (n & Hn & _)%list_elem_of_fmap.
      by apply (rename_not_mapped_code n canonical raw). }
    destruct convert_time.
    - destruct Hnames as (i & _ & ->).
      intros [->|H]%elem_of_insert_inv; [|done].
      apply mapped_code_cases in Hraw.
      rewrite !elem_of_cons, elem_of_nil in Hraw.
      repeat destruct Hraw as [[=]|Hraw]; done.
    - by rewrite Hnames. }
  split; [done|].
  apply index_of_None in Hno. unfold get_last_time, field. by rewrite Hno.
Qed.

Example read_sample_renamed :
  read_mesonet_data library_world (Handle sample_lines) None true true false
  = Ok sample_renamed.
Proof. vm_compute. reflexivity. Qed.

Lemma read_renamed_has_no_raw_code_witness :
  ("TAIR" ∉ names sample_renamed) /\
  get_last_time sample_renamed "TAIR" "datetime" = Raise ValueError.
Proof.
  apply (read_renamed_has_no_raw_code library_world (Handle sample_lines) None
           true sample_renamed "temperature" "TAIR" "datetime").
  - vm_compute. reflexivity.
  - vm_compute. reflexivity.
Defined.

(** ** Station requests and the memo table *)

(** The body of the fetch for a station: one request for the file of the
    day, whatever the time of day and the letter case of the station. *)
Lemma fetch_body_station w d site s :
  fetch_body w (d, Some site) s
  = if Datetime.year d <? 1900 then (Raise ValueError, s)
    else request w (station_url d site) s.
Proof.
  unfold fetch_body, bind, lift, Datetime.strftime_Ymd,
    Datetime.strftime_guard, station_url.
  destruct (Datetime.year d <? 1900); reflexivity.
Qed.

Lemma station_url_same_day d1 d2 site :
  Datetime.year d1 = Datetime.year d2 ->
  Datetime.month d1 = Datetime.month d2 ->
  Datetime.day d1 = Datetime.day d2 ->
  station_url d1 site = station_url d2 site.
Proof. unfold station_url. by intros -> -> ->. Qed.

(** X14: for a station the file asked for is that of the day, but the
    memo table is keyed by the whole timestamp: two calls at different
    times of one day, neither of them memoized, both go to the server and
    ask for the same file. *)
Theorem fetch_same_day_requests_twice w d1 d2 site s body s1 :
  d1 <> d2 ->
  Datetime.year d1 = Datetime.year d2 ->
  Datetime.month d1 = Datetime.month d2 ->
  Datetime.day d1 = Datetime.day d2 ->
  cache_get (d1, Some site) (cache s) = None ->
  cache_get (d2, Some site) (cache s) = None ->
  _fetch_mesonet_data w d1 (Some site) s = (Ok body, s1) ->
  requests s1 = requests s ++ [station_url d1 site] /\
  requests (_fetch_mesonet_data w d2 (Some site) s1).2
  = requests s ++ [station_url d1 site; station_url d1 site].
Proof.
  intros Hne Hy Hm Hd Hc1 Hc2.
  unfold _fetch_mesonet_data, lru_cache. rewrite Hc1.
  rewrite fetch_body_station.
  assert (Hyear : (Datetime.year d2 <? 1900) = (Datetime.year d1 <? 1900))
    by by rewrite Hy.
  destruct (Datetime.year d1 <? 1900) eqn:E1; [done|].
  unfold request.
  destruct (urlopen w (length (requests s)) (station_url d1 site))
    as [v|e]; [|done].
  intros [= <- <-]. cbn [cache requests]. split; [done|].
  cbn [cache_get].
  destruct (decide ((d1, Some site) = (d2, Some site))) as [[=]|_]; [done|].
  rewrite cache_get_take by done.
  rewrite fetch_body_station, Hyear.
  rewrite <- (station_url_same_day d1 d2 site Hy Hm Hd).
  unfold request. cbn [cache requests].
  destruct (urlopen w _ _); cbn [snd requests]; by rewrite <- app_assoc.
Qed.

Lemma fetch_same_day_requests_twice_witness :
  let d1 := Datetime.mk 2008 11 20 12 7 30 5 in
  let d2 := at_minute 0 0 in
  let first := _fetch_mesonet_data library_world d1 (Some "NRMN") empty_state in
  requests first.2 = requests empty_state ++ [station_url d1 "NRMN"] /\
  requests (_fetch_mesonet_data library_world d2 (Some "NRMN") first.2).2
  = requests empty_state ++ [station_url d1 "NRMN"; station_url d1 "NRMN"].
Proof.
  cbv zeta.
  apply (fetch_same_day_requests_twice library_world
           (Datetime.mk 2008 11 20 12 7 30 5) (at_minute 0 0) "NRMN"
           empty_state sample_mts).
  - discriminate.
  - reflexivity.
  - reflexivity.
  - reflexivity.
  - reflexivity.
  - reflexivity.
  - vm_compute. reflexivity.
Defined.

(** ** Failures while assembling the current window *)

(** X16: when fetching or parsing yesterday's file raises, the call
    raises the same error in the state that failure left: today's file is
    not asked for and no table is returned. *)
Theorem remote_yesterday_failure w fields site rename_fields convert_time
  lookup_stids s0 yest e s1 :
  (try one_day <- Datetime.timedelta_days 1 in
   Datetime.sub (utcnow w) one_day) = Ok yest ->
  fetch_and_read w yest fields site rename_fields convert_time lookup_stids s0
  = (Raise e, s1) ->
  remote_mesonet_data w None fields site rename_fields convert_time
    lookup_stids true s0 = (Raise e, s1).
Proof.
  intros Hyest. unfold remote_mesonet_data, fetch_and_read, bind, ret, lift.
  cbv zeta. rewrite Hyest.
  destruct (_fetch_mesonet_data w yest site s0) as [[body|e'] s'];
    [|by intros [= <- <-]].
  destruct (read_mesonet_data w (Handle (PyStr.lines body)) fields
              rename_fields convert_time lookup_stids); [done|].
  by intros [= <- <-].
Qed.

Lemma remote_yesterday_failure_witness :
  remote_mesonet_data offline_world None None (Some "NRMN") false true false
    true empty_state
  = (Raise IOError,
     mk_state [] [station_url (Datetime.mk 2008 11 19 12 7 30 5) "NRMN"]).
Proof.
  apply (remote_yesterday_failure offline_world None (Some "NRMN") false true
           false empty_state (Datetime.mk 2008 11 19 12 7 30 5)).
  - vm_compute. reflexivity.
  - vm_compute. reflexivity.
Defined.

(** X17: when yesterday's table is there and fetching or parsing today's
    file raises, the call raises that error: yesterday's table is given up
    and there is no partial result. *)
Theorem remote_today_failure w fields site rename_fields convert_time
  lookup_stids s0 yest old_data s1 e s2 :
  (try one_day <- Datetime.timedelta_days 1 in
   Datetime.sub (utcnow w) one_day) = Ok yest ->
  fetch_and_read w yest fields site rename_fields convert_time lookup_stids s0
  = (Ok old_data, s1) ->
  fetch_and_read w (utcnow w) fields site rename_fields convert_time
    lookup_stids s1 = (Raise e, s2) ->
  remote_mesonet_data w None fields site rename_fields convert_time
    lookup_stids true s0 = (Raise e, s2).
Proof.
  intros Hyest. unfold remote_mesonet_data, fetch_and_read, bind, ret, lift.
  cbv zeta. rewrite Hyest.
  destruct (_fetch_mesonet_data w yest site s0) as [[body|e'] s']; [|done].
  destruct (read_mesonet_data w (Handle (PyStr.lines body)) fields
              rename_fields convert_time lookup_stids) as [old|e']; [|done].
  intros [= <- <-].
  destruct (_fetch_mesonet_data w (utcnow w) site s') as [[body2|e'] s''];
    [|by intros [= <- <-]].
  destruct (read_mesonet_data w (Handle (PyStr.lines body2)) fields
              rename_fields convert_time lookup_stids); [done|].
  by intros [= <- <-].
Qed.

Lemma remote_today_failure_witness :
  remote_mesonet_data flaky_world None (Some ["stid"; "time"; "tair"])
    (Some "NRMN") false true false true empty_state
  = (Raise IOError,
     mk_state [(Datetime.mk 2008 11 19 12 7 30 5, Some "NRMN", sample_mts)]
       [station_url (Datetime.mk 2008 11 19 12 7 30 5) "NRMN";
        station_url (utcnow flaky_world) "NRMN"]).
Proof.
  apply (remote_today_failure flaky_world (Some ["stid"; "time"; "tair"])
           (Some "NRMN") false true false empty_state
           (Datetime.mk 2008 11 19 12 7 30 5) sample_parsed
           (mk_state
              [(Datetime.mk 2008 11 19 12 7 30 5, Some "NRMN", sample_mts)]
              [station_url (Datetime.mk 2008 11 19 12 7 30 5) "NRMN"])).
  - vm_compute. reflexivity.
  - vm_compute. reflexivity.
  - vm_compute. reflexivity.
Defined.

(** X18: without a date and without [full_day_record] the call is one
    fetch and one parse for the present time, and yesterday's file is not
    asked for. *)
Theorem remote_today_only w fields site rename_fields convert_time
  lookup_stids s :
  remote_mesonet_data w None fields site rename_fields convert_time
    lookup_stids false s
  = fetch_and_read w (utcnow w) fields site rename_fields convert_time
      lookup_stids s.
Proof.
  unfold remote_mesonet_data, fetch_and_read, bind, ret, lift. cbv zeta.
  destruct (_fetch_mesonet_data w (utcnow w) site s) as [[body|e] s1];
    [|done].
  by destruct (read_mesonet_data _ _ _ _ _ _).
Qed.

(** X19: a call for a station never reads the module global [dt]: its
    result and the state it leaves are the same whatever [dt] is bound to,
    or if it is unbound.  The defect of the snapshot branch does not reach
    time-series requests. *)
Theorem remote_station_ignores_global_dt g w date_time fields site
  rename_fields convert_time lookup_stids full_day_record s :
  remote_mesonet_data (with_dt g w) date_time fields (Some site)
    rename_fields convert_time lookup_stids full_day_record s
  = remote_mesonet_data w date_time fields (Some site) rename_fields
      convert_time lookup_stids full_day_record s.
Proof. destruct w. reflexivity. Qed.

(** ** Letter case *)

Lemma lower_upper_char c :
  PyStr.lower_char (PyStr.upper_char c) = PyStr.lower_char c.
Proof.
  destruct c as [[] [] [] [] [] [] [] []]; vm_compute; reflexivity.
Qed.

Lemma lower_lower_char c :
  PyStr.lower_char (PyStr.lower_char c) = PyStr.lower_char c.
Proof.
  destruct c as [[] [] [] [] [] [] [] []]; vm_compute; reflexivity.
Qed.

Lemma lower_upper s : PyStr.lower (PyStr.upper s) = PyStr.lower s.
Proof.
  induction s as [|c s IH]; [done|].
  cbn. f_equal; [apply lower_upper_char|exact IH].
Qed.

Lemma lower_lower s : PyStr.lower (PyStr.lower s) = PyStr.lower s.
Proof.
  induction s as [|c s IH]; [done|].
  cbn. f_equal; [apply lower_lower_char|exact IH].
Qed.

(** X20: the station id is case-insensitive for the server: written in
    upper or in lower case it leads to the same request and the same
    answer. *)
Theorem fetch_site_case_insensitive w date_time site s :
  fetch_body w (date_time, Some (PyStr.upper site)) s
  = fetch_body w (date_time, Some site) s /\
  fetch_body w (date_time, Some (PyStr.lower site)) s
  = fetch_body w (date_time, Some site) s.
Proof.
  rewrite !fetch_body_station. unfold station_url.
  by rewrite lower_upper, lower_lower.
Qed.

(** X21: the letter case of the fields asked for does not matter: two
    lists of fields that agree once put in upper case give the same
    result. *)
Theorem read_fields_case_insensitive w filename l1 l2 rename_fields
  convert_time lookup_stids :
  PyStr.upper <$> l1 = PyStr.upper <$> l2 ->
  read_mesonet_data w filename (Some l1) rename_fields convert_time
    lookup_stids
  = read_mesonet_data w filename (Some l2) rename_fields convert_time
      lookup_stids.
Proof.
  intros Hup.
  assert (Hfields : upper_fields (Some l1) = upper_fields (Some l2)).
  { destruct l1 as [|a l1], l2 as [|b l2]; try done.
    unfold upper_fields. by rewrite Hup. }
  unfold read_mesonet_data. by rewrite Hfields.
Qed.

Lemma read_fields_case_insensitive_witness :
  read_mesonet_data library_world (Handle sample_lines)
    (Some ["STID"; "Time"; "tair"]) false true false
  = read_mesonet_data library_world (Handle sample_lines)
      (Some ["stid"; "time"; "TAIR"]) false true false.
Proof.
  apply (read_fields_case_insensitive library_world (Handle sample_lines)
           ["STID"; "Time"; "tair"] ["stid"; "time"; "TAIR"] false true false).
  vm_compute. reflexivity.
Defined.
